(** * The scheduling engine of the voice meeting scheduler

    A shallow embedding of [tools.py] (the two agent tools
    [parse_natural_datetime] and [smart_schedule_meeting]) and of
    [google_calendar_api.py] (the fallback [MockGoogleCalendarAPI]),
    followed by the properties of the engine.

    Layout:
    - Python exceptions and the error monad of fallible expressions;
    - [datetime] values with the arithmetic the tools use;
    - [isoformat] and a runnable [datetime.fromisoformat];
    - the calendar backend interface, the mock backend, the tools, the tool
      with its console output, the copy of the tool in [main_terminal.py];
    - the vocabulary of the properties and the definitions of the runs;
    - the properties, then the tools run on concrete requests;
    - further properties of the mock, of the runs of the tools, of the slot
      proposal and of the responses, and their concrete instances.

    Output on the console ([print]) is modelled where it can change the
    outcome: in the handler of [smart_schedule_meeting], see [Console]. *)

From Stdlib Require Import ZArith List String Ascii Bool Lia DecimalString.
From Stdlib Require DecimalNat.
From Stdlib Require Import Permutation.
Import ListNotations.

Open Scope string_scope.
Open Scope Z_scope.

(** ** Exceptions *)

(** The exception classes that the modelled code can meet.  [HttpError]
    stands for any failure of the remote calendar service. *)
Inductive exn_class : Type :=
| ValueError | TypeError | KeyError | OverflowError | ParserError | HttpError.

(** An exception value: its class and [str(e)]. *)
Record exn : Type := Exception { exn_cls : exn_class; exn_str : string }.

(** A fallible expression either raises ([inl]) or yields a value ([inr]). *)
Definition exc (A : Type) : Type := (exn + A)%type.

Definition raise {A : Type} (c : exn_class) (msg : string) : exc A :=
  inl (Exception c msg).

Definition exc_bind {A B : Type} (m : exc A) (k : A -> exc B) : exc B :=
  match m with
  | inl e => inl e
  | inr a => k a
  end.

Notation "'let?' x ':=' m 'in' k" := (exc_bind m (fun x => k))
  (at level 10, x pattern, m at level 100, k at level 200).

(** ** datetime values *)

Definition US_PER_SECOND : Z := 1000000.
Definition US_PER_MINUTE : Z := 60000000.
Definition US_PER_HOUR : Z := 3600000000.
Definition US_PER_DAY : Z := 86400000000.

(** [date.max.toordinal()], the ordinal of 9999-12-31. *)
Definition MAXORDINAL : Z := 3652059.

(** First wall-clock reading past [datetime.max]. *)
Definition MAXWALL : Z := MAXORDINAL * US_PER_DAY.

(** A [datetime] object.  [wall] is the wall-clock reading (year .. microsecond)
    counted in microseconds from 0001-01-01T00:00:00, the unit in which
    Python's own datetime arithmetic works (ordinal day, second of the day,
    microsecond).  [tzinfo] is [None] for a naive value and the UTC offset in
    microseconds for an aware one. *)
Record datetime : Type := mkdatetime { wall : Z; tzinfo : option Z }.

(** A [timedelta], in microseconds. *)
Abbreviation timedelta := Z (only parsing).

Definition timedelta_minutes (n : Z) : timedelta := n * US_PER_MINUTE.

(** The values a [datetime] can hold: year 1 to year 9999. *)
Definition in_range (w : Z) : bool := (0 <=? w) && (w <? MAXWALL).

Definition dt_valid (d : datetime) : Prop := 0 <= wall d < MAXWALL.

(** [d.hour], [d.minute], [d.second], [d.microsecond] *)
Definition hour (d : datetime) : Z := (wall d / US_PER_HOUR) mod 24.
Definition minute (d : datetime) : Z := (wall d / US_PER_MINUTE) mod 60.
Definition second (d : datetime) : Z := (wall d / US_PER_SECOND) mod 60.
Definition microsecond (d : datetime) : Z := wall d mod US_PER_SECOND.
Definition toordinal (d : datetime) : Z := wall d / US_PER_DAY + 1.

(** [d + delta]: wall-clock arithmetic that keeps [tzinfo]; out of the
    supported years it raises [OverflowError]. *)
Definition dt_add (d : datetime) (delta : timedelta) : exc datetime :=
  let w := wall d + delta in
  if in_range w then inr {| wall := w; tzinfo := tzinfo d |}
  else raise OverflowError "date value out of range".

(** [a - b].  Two naive values are subtracted as they read; two aware values
    as instants; a naive and an aware value cannot be subtracted. *)
Definition dt_sub (a b : datetime) : exc timedelta :=
  match tzinfo a, tzinfo b with
  | None, None => inr (wall a - wall b)
  | Some oa, Some ob => inr (wall a - wall b + ob - oa)
  | _, _ => raise TypeError "can't subtract offset-naive and offset-aware datetimes"
  end.

(** The instant an aware value denotes (microseconds of UTC); for a naive
    value, its reading. *)
Definition instant (d : datetime) : Z :=
  match tzinfo d with
  | Some off => wall d - off
  | None => wall d
  end.

Definition aware (d : datetime) : bool :=
  match tzinfo d with Some _ => true | None => false end.

(** Ordering comparisons [a < b] and [a > b]: by reading for two naive values,
    by instant for two aware ones, [TypeError] otherwise. *)
Definition dt_cmp (a b : datetime) : exc comparison :=
  match tzinfo a, tzinfo b with
  | None, None => inr (wall a ?= wall b)
  | Some oa, Some ob => inr ((wall a - oa) ?= (wall b - ob))
  | _, _ => raise TypeError "can't compare offset-naive and offset-aware datetimes"
  end.

Definition dt_lt (a b : datetime) : exc bool :=
  let? c := dt_cmp a b in
  inr (match c with Lt => true | _ => false end).

Definition dt_gt (a b : datetime) : exc bool :=
  let? c := dt_cmp a b in
  inr (match c with Gt => true | _ => false end).

(** [d.replace(tzinfo=None)] *)
Definition replace_tzinfo_None (d : datetime) : datetime :=
  {| wall := wall d; tzinfo := None |}.

(** [d.replace(second=0, microsecond=0)] *)
Definition replace_second0_microsecond0 (d : datetime) : datetime :=
  {| wall := wall d - wall d mod US_PER_MINUTE; tzinfo := tzinfo d |}.

(** *** The zone Asia/Kolkata

    [pytz.timezone('Asia/Kolkata')] is taken at its standard offset +05:30,
    the only one in force since 15 October 1945.  Two things that pytz does
    are left out by that: for earlier dates it attaches the offset in force
    at the date (+06:30 during the war, local mean times before 1906), and
    for readings in the first and in the last day that [datetime] can hold it
    raises [OverflowError].  The model is the code for readings from
    1945-10-15 to 9999-12-30. *)
Definition time_zone : string := "Asia/Kolkata".

Definition kolkata_utcoffset : Z := 330 * US_PER_MINUTE.

(** [tz.localize(d)]: attaches the zone to a naive value; pytz refuses an
    aware one. *)
Definition localize (d : datetime) : exc datetime :=
  match tzinfo d with
  | Some _ => raise ValueError "Not naive datetime (tzinfo is already set)"
  | None => inr {| wall := wall d; tzinfo := Some kolkata_utcoffset |}
  end.

(** [d.astimezone(tz)] for an aware [d] of offset [off].  Python first takes
    the reading at UTC, [d - off], which must be a value that [datetime] can
    hold, and the zone then reads that instant at its offset. *)
Definition astimezone (d : datetime) (off : Z) : exc datetime :=
  let utc := wall d - off in
  if in_range utc then
    let w := utc + kolkata_utcoffset in
    if in_range w then inr {| wall := w; tzinfo := Some kolkata_utcoffset |}
    else raise OverflowError "date value out of range"
  else raise OverflowError "date value out of range".

(** ** Calendar arithmetic and [isoformat]

    The proleptic Gregorian calendar of Python's [datetime] module. *)

Definition is_leap (year : Z) : bool :=
  (year mod 4 =? 0) && (negb (year mod 100 =? 0) || (year mod 400 =? 0)).

Definition DAYS_IN_MONTH : list Z := [0; 31; 28; 31; 30; 31; 30; 31; 31; 30; 31; 30; 31].

Definition DAYS_BEFORE_MONTH : list Z :=
  [0; 0; 31; 59; 90; 120; 151; 181; 212; 243; 273; 304; 334].

Definition days_before_year (year : Z) : Z :=
  let y := year - 1 in y * 365 + y / 4 - y / 100 + y / 400.

Definition days_in_month (year month : Z) : Z :=
  if (month =? 2) && is_leap year then 29
  else nth (Z.to_nat month) DAYS_IN_MONTH 0.

Definition days_before_month (year month : Z) : Z :=
  nth (Z.to_nat month) DAYS_BEFORE_MONTH 0
  + (if (2 <? month) && is_leap year then 1 else 0).

Definition ymd2ord (year month day : Z) : Z :=
  days_before_year year + days_before_month year month + day.

Definition DI400Y : Z := 146097.
Definition DI100Y : Z := 36524.
Definition DI4Y : Z := 1461.

(** Ordinal day to (year, month, day). *)
Definition ord2ymd (ordinal : Z) : Z * Z * Z :=
  let n := ordinal - 1 in
  let n400 := n / DI400Y in
  let n := n mod DI400Y in
  let n100 := n / DI100Y in
  let n := n mod DI100Y in
  let n4 := n / DI4Y in
  let n := n mod DI4Y in
  let n1 := n / 365 in
  let n := n mod 365 in
  let year := n400 * 400 + 1 + n100 * 100 + n4 * 4 + n1 in
  if (n1 =? 4) || (n100 =? 4) then (year - 1, 12, 31)
  else
    let leapyear := (n1 =? 3) && (negb (n4 =? 24) || (n100 =? 3)) in
    let month := Z.shiftr (n + 50) 5 in
    let preceding :=
      nth (Z.to_nat month) DAYS_BEFORE_MONTH 0
      + (if (2 <? month) && leapyear then 1 else 0) in
    if n <? preceding then
      let month := month - 1 in
      let preceding :=
        preceding - (nth (Z.to_nat month) DAYS_IN_MONTH 0
                     + (if (month =? 2) && leapyear then 1 else 0)) in
      (year, month, n - preceding + 1)
    else (year, month, n - preceding + 1).

Definition digit (n : Z) : ascii := ascii_of_nat (48 + Z.to_nat (n mod 10)).

(** ["%0<width>d" % n] for [0 <= n < 10 ^ width]. *)
Fixpoint zfill (width : nat) (n : Z) : string :=
  match width with
  | O => ""
  | S w => zfill w (n / 10) ++ String (digit n) ""
  end.

(** The UTC offset as [isoformat] prints it: [+HH:MM], then [:SS] and
    [.ffffff] when they are not zero. *)
Definition format_offset (off : Z) : string :=
  let sign := if off <? 0 then "-" else "+" in
  let a := Z.abs off in
  let hh := a / US_PER_HOUR in
  let mm := (a / US_PER_MINUTE) mod 60 in
  let ss := (a / US_PER_SECOND) mod 60 in
  let us := a mod US_PER_SECOND in
  sign ++ zfill 2 hh ++ ":" ++ zfill 2 mm
  ++ (if (ss =? 0) && (us =? 0) then ""
      else ":" ++ zfill 2 ss ++ (if us =? 0 then "" else "." ++ zfill 6 us)).

(** [d.isoformat()] *)
Definition isoformat (d : datetime) : string :=
  let '(y, m, dd) := ord2ymd (toordinal d) in
  zfill 4 y ++ "-" ++ zfill 2 m ++ "-" ++ zfill 2 dd ++ "T"
  ++ zfill 2 (hour d) ++ ":" ++ zfill 2 (minute d) ++ ":" ++ zfill 2 (second d)
  ++ (if microsecond d =? 0 then "" else "." ++ zfill 6 (microsecond d))
  ++ match tzinfo d with
     | None => ""
     | Some off => format_offset off
     end.

(** ** A runnable [datetime.fromisoformat]

    The tools are modelled over any implementation of [fromisoformat] (the
    accepted grammar grew between Python versions).  The parser below is the
    one of Python 3.7 to 3.10: it accepts what [isoformat] writes,
    [YYYY-MM-DD[*HH[:MM[:SS[.fff[fff]]]][+HH:MM[:SS[.ffffff]]]]], and reports
    a malformed string, an offset of a day or more and a field out of its
    range with the messages of that implementation.  Later versions accept
    more spellings.  It is the instance on which the model is run. *)
Module Iso.

Definition digit_val (c : ascii) : option Z :=
  let n := nat_of_ascii c in
  if ((48 <=? n)%nat && (n <=? 57)%nat)%bool then Some (Z.of_nat (n - 48))
  else None.

Fixpoint digits_from (acc : Z) (s : string) : option Z :=
  match s with
  | EmptyString => Some acc
  | String c r =>
      match digit_val c with
      | Some v => digits_from (acc * 10 + v) r
      | None => None
      end
  end.

(** A non-empty run of decimal digits. *)
Definition int (s : string) : option Z :=
  match s with
  | EmptyString => None
  | _ => digits_from 0 s
  end.

(** Two digits off the front of a string. *)
Definition take2 (s : string) : option (Z * string) :=
  match s with
  | String a (String b r) =>
      match digit_val a, digit_val b with
      | Some x, Some y => Some (10 * x + y, r)
      | _, _ => None
      end
  | _ => None
  end.

Definition parse_fraction (r : string) : option Z :=
  match String.length r with
  | 3%nat => option_map (fun v => v * 1000) (int r)
  | 6%nat => int r
  | _ => None
  end.

(** [HH[:MM[:SS[.fff[fff]]]]] *)
Definition parse_hh_mm_ss_ff (t : string) : option (Z * Z * Z * Z) :=
  match take2 t with
  | None => None
  | Some (hh, r) =>
      match r with
      | EmptyString => Some (hh, 0, 0, 0)
      | String ":" r =>
          match take2 r with
          | None => None
          | Some (mm, r) =>
              match r with
              | EmptyString => Some (hh, mm, 0, 0)
              | String ":" r =>
                  match take2 r with
                  | None => None
                  | Some (ss, r) =>
                      match r with
                      | EmptyString => Some (hh, mm, ss, 0)
                      | String "." r =>
                          option_map (fun us => (hh, mm, ss, us)) (parse_fraction r)
                      | _ => None
                      end
                  end
              | _ => None
              end
          end
      | _ => None
      end
  end.

(** [YYYY-MM-DD]: the three numbers. *)
Definition parse_isoformat_date (dstr : string) : option (Z * Z * Z) :=
  match int (substring 0 4 dstr), get 4 dstr, int (substring 5 2 dstr),
        get 7 dstr, int (substring 8 2 dstr) with
  | Some y, Some "-"%char, Some m, Some "-"%char, Some d =>
      if (String.length dstr =? 10)%nat then Some (y, m, d) else None
  | _, _, _, _, _ => None
  end.

(** Position of the offset sign in the time part: the first ['-'] if there
    is one, the first ['+'] otherwise. *)
Definition tz_pos (tstr : string) : option nat :=
  match index 0 "-" tstr with
  | Some p => Some p
  | None => index 0 "+" tstr
  end.

(** The offset after its sign, in microseconds. *)
Definition parse_offset (negative : bool) (tzstr : string) : option Z :=
  match String.length tzstr with
  | 5%nat | 8%nat | 15%nat =>
      match parse_hh_mm_ss_ff tzstr with
      | Some (hh, mm, ss, us) =>
          let td := hh * US_PER_HOUR + mm * US_PER_MINUTE + ss * US_PER_SECOND + us in
          Some (if negative then - td else td)
      | None => None
      end
  | _ => None
  end.

(** The time part: its four numbers, and the offset if there is one. *)
Definition parse_isoformat_time (tstr : string) : option (Z * Z * Z * Z * option Z) :=
  match tz_pos tstr with
  | None => option_map (fun c => (c, None)) (parse_hh_mm_ss_ff tstr)
  | Some p =>
      let timestr := substring 0 p tstr in
      let tzstr := substring (S p) (String.length tstr - S p) tstr in
      let negative := match get p tstr with Some "-"%char => true | _ => false end in
      match parse_hh_mm_ss_ff timestr, parse_offset negative tzstr with
      | Some c, Some off => Some (c, Some off)
      | _, _ => None
      end
  end.

(** The numbers that the string spells, before any check of their ranges. *)
Definition split (date_string : string)
  : option (Z * Z * Z * (Z * Z * Z * Z * option Z)) :=
  let dstr := substring 0 10 date_string in
  let tstr := substring 11 (String.length date_string - 11) date_string in
  match parse_isoformat_date dstr with
  | None => None
  | Some date =>
      match tstr with
      | EmptyString => Some (date, (0, 0, 0, 0, None))
      | _ => option_map (fun t => (date, t)) (parse_isoformat_time tstr)
      end
  end.

(** [str(n)] for an integer. *)
Definition str_Z (n : Z) : string :=
  if n <? 0 then "-" ++ NilZero.string_of_uint (N.to_uint (Z.to_N (- n)))
  else NilZero.string_of_uint (N.to_uint (Z.to_N n)).

(** [repr(delta)] for a [timedelta] that is not zero. *)
Definition repr_timedelta (delta : Z) : string :=
  let days := delta / US_PER_DAY in
  let seconds := (delta mod US_PER_DAY) / US_PER_SECOND in
  let microseconds := delta mod US_PER_SECOND in
  let d := if days =? 0 then [] else ["days=" ++ str_Z days] in
  let s := if seconds =? 0 then [] else ["seconds=" ++ str_Z seconds] in
  let u := if microseconds =? 0 then [] else ["microseconds=" ++ str_Z microseconds] in
  "datetime.timedelta(" ++ String.concat ", " (d ++ s ++ u)%list ++ ")".

(** [timezone(offset)]: the offset lies strictly within a day. *)
Definition new_timezone (off : Z) : exc Z :=
  if ((- US_PER_DAY <? off) && (off <? US_PER_DAY))%bool then inr off
  else raise ValueError
         ("offset must be a timedelta strictly between -timedelta(hours=24) and timedelta(hours=24), not "
          ++ repr_timedelta off ++ ".").

(** [datetime(year, month, day, hour, minute, second, microsecond, tzinfo)]:
    the fields are checked in this order. *)
Definition new_datetime (year month day hh mm ss us : Z) (tz : option Z) : exc datetime :=
  if negb ((1 <=? year) && (year <=? 9999)) then
    raise ValueError ("year " ++ str_Z year ++ " is out of range")
  else if negb ((1 <=? month) && (month <=? 12)) then
    raise ValueError "month must be in 1..12"
  else if negb ((1 <=? day) && (day <=? days_in_month year month)) then
    raise ValueError "day is out of range for month"
  else if negb (hh <=? 23) then raise ValueError "hour must be in 0..23"
  else if negb (mm <=? 59) then raise ValueError "minute must be in 0..59"
  else if negb (ss <=? 59) then raise ValueError "second must be in 0..59"
  else
    inr {| wall := (ymd2ord year month day - 1) * US_PER_DAY
                   + hh * US_PER_HOUR + mm * US_PER_MINUTE + ss * US_PER_SECOND + us;
           tzinfo := tz |}.

(** [datetime.fromisoformat(date_string)] *)
Definition fromisoformat (date_string : string) : exc datetime :=
  match split date_string with
  | None => raise ValueError ("Invalid isoformat string: '" ++ date_string ++ "'")
  | Some (year, month, day, (hh, mm, ss, us, tz)) =>
      let? tz :=
        match tz with
        | None => inr None
        | Some off => let? off := new_timezone off in inr (Some off)
        end in
      new_datetime year month day hh mm ss us tz
  end.

(** The value that [fromisoformat] returns, if it returns. *)
Definition parse (date_string : string) : option datetime :=
  match fromisoformat date_string with
  | inr d => Some d
  | inl _ => None
  end.

End Iso.

(** ** Calendar events and the backend interface *)

(** The [start] and [end] of an event.  A timed event carries [dateTime];
    an all-day event of the calendar service does not. *)
Record EventTime : Type := { dateTime : option string; timeZone : option string }.

Module Event.

(** An event resource as the backend returns it. *)
Record t : Type := {
  id : string;
  status : string;
  summary : string;
  start : EventTime;
  end_ : EventTime;
  htmlLink : string
}.

End Event.

Module Body.

(** The body of an insert request. *)
Record t : Type := { summary : string; start : EventTime; end_ : EventTime }.

End Body.

(** [api_resource.events().list(calendarId=.., timeMin=.., timeMax=..,
    singleEvents=.., orderBy=..)] *)
Record ListRequest : Type := {
  list_calendarId : string;
  timeMin : string;
  timeMax : string;
  singleEvents : bool;
  orderBy : string
}.

(** [api_resource.events().insert(calendarId=.., body=..)] *)
Record InsertRequest : Type := { insert_calendarId : string; body : Body.t }.

(** The answer to a list request; the key ['items'] may be absent. *)
Record ListReply : Type := { items : option (list Event.t) }.

(** [events_result.get('items', [])] *)
Definition get_items (r : ListReply) : list Event.t :=
  match items r with
  | Some l => l
  | None => []
  end.

(** What [api_resource] offers the tools: executing a list request and
    executing an insert request.  Either may raise, and either may change the
    state [S] of the calendar. *)
Class CalendarAPI (S : Type) : Type := {
  execute_list : ListRequest -> S -> exc ListReply * S;
  execute_insert : InsertRequest -> S -> exc Event.t * S
}.

(** A request sent to the backend. *)
Inductive request : Type :=
| ReqList (rq : ListRequest)
| ReqInsert (rq : InsertRequest).

Definition is_insert (c : request) : bool :=
  match c with
  | ReqInsert _ => true
  | ReqList _ => false
  end.

(** ** Programs over the backend

    The module-level [api_resource] is threaded as state, together with the
    log of the calls [api_resource.events().list(..).execute()] and
    [api_resource.events().insert(..).execute()] that the tools have reached
    so far, with their arguments; a call is logged whether the backend serves
    it or raises. *)
Record world (S : Type) : Type := { api_resource : S; requests : list request }.
Arguments api_resource {S} _.
Arguments requests {S} _.

Definition prog (S A : Type) : Type := world S -> exc A * world S.

Definition ret {S A : Type} (a : A) : prog S A := fun w => (inr a, w).

Definition bind {S A B : Type} (m : prog S A) (k : A -> prog S B) : prog S B :=
  fun w =>
    match m w with
    | (inl e, w') => (inl e, w')
    | (inr a, w') => k a w'
    end.

Definition lift {S A : Type} (m : exc A) : prog S A := fun w => (m, w).

(** [try: body except Exception as e: handler(e)] *)
Definition try_except {S A : Type} (m : prog S A) (handler : exn -> prog S A) : prog S A :=
  fun w =>
    match m w with
    | (inl e, w') => handler e w'
    | (inr a, w') => (inr a, w')
    end.

Notation "x <- m ;; k" := (bind m (fun x => k))
  (at level 61, m at next level, right associativity).

Definition events_list {S : Type} `{CalendarAPI S} (rq : ListRequest) : prog S ListReply :=
  fun w =>
    let (r, s) := execute_list rq (api_resource w) in
    (r, {| api_resource := s; requests := (requests w ++ [ReqList rq])%list |}).

Definition events_insert {S : Type} `{CalendarAPI S} (rq : InsertRequest) : prog S Event.t :=
  fun w =>
    let (r, s) := execute_insert rq (api_resource w) in
    (r, {| api_resource := s; requests := (requests w ++ [ReqInsert rq])%list |}).

(** ** What the tools return *)

(** The dictionary returned by [smart_schedule_meeting]. *)
Record Response : Type := {
  status : string;
  message : string;
  event : option Event.t;
  suggested_start : option string;
  suggested_end : option string
}.

(** The dictionary returned by [parse_natural_datetime]. *)
Record ParseResponse : Type := { parsed_datetime : option string; error : option string }.

(** Truth value of a string: it is not empty. *)
Definition truthy (s : string) : bool :=
  match s with
  | EmptyString => false
  | String _ _ => true
  end.

(** The builtin [all]. *)
Definition all (l : list bool) : bool := forallb (fun b => b) l.

(** [t['dateTime']] *)
Definition getitem_dateTime (t : EventTime) : exc string :=
  match dateTime t with
  | Some s => inr s
  | None => raise KeyError "'dateTime'"
  end.

(** [str(n)] for a natural number. *)
Definition str_nat (n : nat) : string := NilZero.string_of_uint (Nat.to_uint n).

(** The comprehension [[x for x in l if keep(x)]] with a test that may raise. *)
Fixpoint filter_exc {A : Type} (keep : A -> exc bool) (l : list A) : exc (list A) :=
  match l with
  | [] => inr []
  | x :: r =>
      let? b := keep x in
      let? r' := filter_exc keep r in
      inr (if b then x :: r' else r')
  end.

(** ** The backends and the tools

    [fromisoformat] is [datetime.fromisoformat] and [dateutil_parse] is
    [dateutil.parser.parse(.., fuzzy=True, default=..)]; both belong to
    libraries and are left open: every definition and theorem of this section
    holds whatever they accept. *)
Section Engine.

Variable fromisoformat : string -> exc datetime.
Variable dateutil_parse : string -> datetime -> exc datetime.

(** *** [MockGoogleCalendarAPI] *)

(** The test of the comprehension in [list_events]:
    [fromisoformat(event['start']['dateTime']) < max_dt and
     fromisoformat(event['end']['dateTime']) > min_dt]. *)
Definition conflicts_with (min_dt max_dt : datetime) (event : Event.t) : exc bool :=
  let? s := getitem_dateTime (Event.start event) in
  let? start_dt := fromisoformat s in
  let? before := dt_lt start_dt max_dt in
  if before then
    let? e := getitem_dateTime (Event.end_ event) in
    let? end_dt := fromisoformat e in
    dt_gt end_dt min_dt
  else inr false.

Definition list_events (calendarId timeMin timeMax : string) (events : list Event.t)
  : exc ListReply :=
  let? min_dt := fromisoformat timeMin in
  let? max_dt := fromisoformat timeMax in
  let? conflicting := filter_exc (conflicts_with min_dt max_dt) events in
  inr {| items := Some conflicting |}.

Definition insert_event (calendarId : string) (eventBody : Body.t) (events : list Event.t)
  : Event.t * list Event.t :=
  let new_event :=
    {| Event.id := "mock_event_" ++ str_nat (List.length events + 1);
       Event.status := "confirmed";
       Event.summary := Body.summary eventBody;
       Event.start := Body.start eventBody;
       Event.end_ := Body.end_ eventBody;
       Event.htmlLink :=
         "https://mockcalendar.google.com/event/" ++ str_nat (List.length events + 1) |} in
  (new_event, (events ++ [new_event])%list).

(** The mock as [smart_schedule_meeting] reaches it.  [__init__] stores the
    list of events under the name [events], and this attribute of the object
    hides the method [events] of the class: [api_resource.events()] calls a
    list and raises [TypeError], at the list call and at the insert call
    alike.  Neither [list_events] nor [insert_event] is reached, and the
    stored events stay as they are. *)
Definition MockGoogleCalendarAPI : CalendarAPI (list Event.t) := {|
  execute_list := fun _ events =>
    (raise TypeError "'list' object is not callable", events);
  execute_insert := fun _ events =>
    (raise TypeError "'list' object is not callable", events)
|}.

(** A calendar that holds events: list requests are served by [list_events]
    and insert requests by [insert_event], the two methods of the mock called
    directly.  It is not the object that [tools.py] uses (see
    [MockGoogleCalendarAPI]); it gives the tool a backend with stored events
    when the tool is run on concrete requests. *)
Definition StoredCalendar : CalendarAPI (list Event.t) := {|
  execute_list := fun rq events =>
    (list_events (list_calendarId rq) (timeMin rq) (timeMax rq) events, events);
  execute_insert := fun rq events =>
    let (new_event, events') := insert_event (insert_calendarId rq) (body rq) events in
    (inr new_event, events')
|}.

(** *** [parse_natural_datetime] *)

(** [tz.localize(datetime.fromisoformat(s).replace(tzinfo=None))] *)
Definition localized (s : string) : exc datetime :=
  let? d := fromisoformat s in
  localize (replace_tzinfo_None d).

Definition parse_natural_datetime (input_string current_datetime_str : string)
  : ParseResponse :=
  let attempt :=
    let? current_dt := localized current_datetime_str in
    let? parsed_dt := dateutil_parse input_string current_dt in
    let? parsed_dt :=
      match tzinfo parsed_dt with
      | None => localize parsed_dt
      | Some off => astimezone parsed_dt off
      end in
    inr {| parsed_datetime := Some (isoformat parsed_dt); error := None |} in
  match attempt with
  | inr r => r
  | inl e =>
      {| parsed_datetime := None;
         error := Some ("Could not parse natural datetime: " ++ exn_str e
                        ++ ". Please try a more specific format.") |}
  end.

(** *** The slot proposal of [smart_schedule_meeting] *)

(** The loop over the conflicts: the latest of [suggested_start_dt] and the
    conflicts' ends, each end read as a wall clock of the zone. *)
Fixpoint latest_end (conflicting_events : list Event.t) (suggested_start_dt : datetime)
  : exc datetime :=
  match conflicting_events with
  | [] => inr suggested_start_dt
  | conflict :: rest =>
      let? e := getitem_dateTime (Event.end_ conflict) in
      let? conflict_end_dt := localized e in
      let? later := dt_gt conflict_end_dt suggested_start_dt in
      latest_end rest (if later then conflict_end_dt else suggested_start_dt)
  end.

(** The five-minute buffer and the rounding to a half-hour mark. *)
Definition buffer_and_round (suggested_start_dt : datetime) : exc datetime :=
  let? suggested_start_dt := dt_add suggested_start_dt (timedelta_minutes 5) in
  let minutes := minute suggested_start_dt in
  let remainder := minutes mod 30 in
  let? suggested_start_dt :=
    if negb (remainder =? 0)
    then dt_add suggested_start_dt (timedelta_minutes (30 - remainder))
    else inr suggested_start_dt in
  inr (replace_second0_microsecond0 suggested_start_dt).

(** The candidate window ([suggested_start_dt], [suggested_end_dt]). *)
Definition suggest_slot (conflicting_events : list Event.t) (start_dt end_dt : datetime)
  : exc (datetime * datetime) :=
  let? suggested_start_dt := latest_end conflicting_events end_dt in
  let? suggested_start_dt := buffer_and_round suggested_start_dt in
  let? duration := dt_sub end_dt start_dt in
  let? suggested_end_dt := dt_add suggested_start_dt duration in
  inr (suggested_start_dt, suggested_end_dt).

(** *** [smart_schedule_meeting] *)

Context {S : Type} `{CalendarAPI S}.

Definition error_response (msg : string) : Response :=
  {| status := "error"; message := msg;
     event := None; suggested_start := None; suggested_end := None |}.

Definition window_request (calendar_id lo hi : string) : ListRequest :=
  {| list_calendarId := calendar_id; timeMin := lo; timeMax := hi;
     singleEvents := true; orderBy := "startTime" |}.

(** The body of the [try] block. *)
Definition schedule_or_suggest (summary preferred_start preferred_end calendar_id : string)
  : prog S Response :=
  start_dt <- lift (localized preferred_start) ;;
  end_dt <- lift (localized preferred_end) ;;
  let start_iso := isoformat start_dt in
  let end_iso := isoformat end_dt in
  events_result <- events_list (window_request calendar_id start_iso end_iso) ;;
  let conflicting_events := get_items events_result in
  match conflicting_events with
  | [] =>
      let event :=
        {| Body.summary := summary;
           Body.start := {| dateTime := Some start_iso; timeZone := Some time_zone |};
           Body.end_ := {| dateTime := Some end_iso; timeZone := Some time_zone |} |} in
      created_event <-
        events_insert {| insert_calendarId := calendar_id; body := event |} ;;
      ret {| status := "success"; message := "Meeting scheduled.";
             event := Some created_event;
             suggested_start := None; suggested_end := None |}
  | _ :: _ =>
      slot <- lift (suggest_slot conflicting_events start_dt end_dt) ;;
      let '(suggested_start_dt, suggested_end_dt) := slot in
      suggested_events_result <-
        events_list (window_request calendar_id (isoformat suggested_start_dt)
                                    (isoformat suggested_end_dt)) ;;
      match get_items suggested_events_result with
      | [] =>
          ret {| status := "conflict";
                 message := "Preferred time is busy. Suggested next available slot:";
                 event := None;
                 suggested_start := Some (isoformat suggested_start_dt);
                 suggested_end := Some (isoformat suggested_end_dt) |}
      | _ :: _ =>
          ret {| status := "conflict";
                 message := "Preferred time is busy and next suggested time is also unavailable. Please try another slot.";
                 event := None; suggested_start := None; suggested_end := None |}
      end
  end.

Definition smart_schedule_meeting (summary preferred_start preferred_end calendar_id : string)
  : prog S Response :=
  if negb (all [truthy summary; truthy preferred_start; truthy preferred_end]) then
    ret (error_response
           "Missing required meeting details (summary, preferred_start, preferred_end).")
  else
    try_except
      (schedule_or_suggest summary preferred_start preferred_end calendar_id)
      (fun e => ret (error_response ("An error occurred: " ++ exn_str e))).

End Engine.

(** ** The tool with its console output

    The handler of [smart_schedule_meeting] prints the exception before it
    returns the error response (line 125 of [tools.py]).  The print stands
    outside any [try]: when it raises, its exception leaves the tool.
    [stdout_write] is [sys.stdout.write]: it returns, or it raises (a closed
    stream, a text that the stream cannot encode).  The definition of
    [smart_schedule_meeting] above is the tool on a console that takes the
    text. *)
Module Console.

Section Tool.

Variable fromisoformat : string -> exc datetime.
Variable stdout_write : string -> exc unit.
Context {S : Type} `{CalendarAPI S}.

Definition newline : string := String (ascii_of_nat 10) EmptyString.

(** [print(text)]: the text, then the end of the line. *)
Definition print (text : string) : prog S unit :=
  u <- lift (stdout_write text) ;;
  lift (stdout_write newline).

Definition smart_schedule_meeting
           (summary preferred_start preferred_end calendar_id : string)
  : prog S Response :=
  if negb (all [truthy summary; truthy preferred_start; truthy preferred_end]) then
    ret (error_response
           "Missing required meeting details (summary, preferred_start, preferred_end).")
  else
    try_except
      (schedule_or_suggest fromisoformat summary preferred_start preferred_end calendar_id)
      (fun e =>
         u <- print ("Error in smart_schedule_meeting: " ++ exn_str e) ;;
         ret (error_response ("An error occurred: " ++ exn_str e))).

End Tool.

End Console.

(** ** The copy of the tool in [main_terminal.py]

    There the backend is an argument, [None] by default, bound with
    [partial(smart_schedule_meeting, api_resource=api_resource)]. *)
Module Terminal.

Section Tool.

Variable fromisoformat : string -> exc datetime.
Context {S : Type}.

Definition smart_schedule_meeting
           (summary preferred_start preferred_end calendar_id : string)
           (api_resource : option (CalendarAPI S)) : prog S Response :=
  match api_resource with
  | None =>
      ret (error_response "Google Calendar API resource not provided to the tool.")
  | Some api =>
      if negb (all [truthy summary; truthy preferred_start; truthy preferred_end]) then
        ret (error_response
               "Missing required meeting details (summary, preferred_start, preferred_end).")
      else
        try_except
          (start_dt <- lift (localized fromisoformat preferred_start) ;;
           end_dt <- lift (localized fromisoformat preferred_end) ;;
           let start_iso := isoformat start_dt in
           let end_iso := isoformat end_dt in
           events_result <-
             @events_list S api
               {| list_calendarId := calendar_id; timeMin := start_iso; timeMax := end_iso;
                  singleEvents := true; orderBy := "startTime" |} ;;
           let conflicting_events := get_items events_result in
           match conflicting_events with
           | [] =>
               let event :=
                 {| Body.summary := summary;
                    Body.start :=
                      {| dateTime := Some start_iso; timeZone := Some time_zone |};
                    Body.end_ :=
                      {| dateTime := Some end_iso; timeZone := Some time_zone |} |} in
               created_event <-
                 @events_insert S api {| insert_calendarId := calendar_id; body := event |} ;;
               ret {| status := "success"; message := "Meeting scheduled.";
                      event := Some created_event;
                      suggested_start := None; suggested_end := None |}
           | _ :: _ =>
               slot <- lift (suggest_slot fromisoformat conflicting_events start_dt end_dt) ;;
               let '(suggested_start_dt, suggested_end_dt) := slot in
               suggested_events_result <-
                 @events_list S api
                   {| list_calendarId := calendar_id;
                      timeMin := isoformat suggested_start_dt;
                      timeMax := isoformat suggested_end_dt;
                      singleEvents := true; orderBy := "startTime" |} ;;
               match get_items suggested_events_result with
               | [] =>
                   ret {| status := "conflict";
                          message := "Preferred time is busy. Suggested next available slot:";
                          event := None;
                          suggested_start := Some (isoformat suggested_start_dt);
                          suggested_end := Some (isoformat suggested_end_dt) |}
               | _ :: _ =>
                   ret {| status := "conflict";
                          message := "Preferred time is busy and next suggested time is also unavailable. Please try another slot.";
                          event := None; suggested_start := None; suggested_end := None |}
               end
           end)
          (fun e => ret (error_response ("An error occurred: " ++ exn_str e)))
  end.

End Tool.

End Terminal.

(** * Vocabulary of the properties *)

(** ** The half-hour grid *)

Definition HALF_HOUR : Z := 30 * US_PER_MINUTE.

(** A reading lies on a half-hour mark. *)
Definition on_half_hour (d : datetime) : Prop := wall d mod HALF_HOUR = 0.

(** ** The years of the standard offset *)

(** The wall clock 1945-10-15T00:00:00, from which the zone is at +05:30. *)
Definition IST_SINCE : Z := (ymd2ord 1945 10 15 - 1) * US_PER_DAY.

(** ** Bookings as the code reads them *)

Section Readings.

Variable fromisoformat : string -> exc datetime.

(** The end of a conflict as the loop reads it. *)
Definition conflict_end (conflict : Event.t) : exc datetime :=
  let? e := getitem_dateTime (Event.end_ conflict) in
  localized fromisoformat e.

(** The window of a booking as [list_events] reads it. *)
Definition window_of (ev : Event.t) : exc (datetime * datetime) :=
  let? s := getitem_dateTime (Event.start ev) in
  let? bs := fromisoformat s in
  let? e := getitem_dateTime (Event.end_ ev) in
  let? be := fromisoformat e in
  inr (bs, be).

(** A booking that can be compared with the window ([ws], [we]): its two
    ends are readable, and aware or naive as the ends they are compared with. *)
Definition comparable_with (ws we : datetime) (ev : Event.t) : Prop :=
  exists bs be, window_of ev = inr (bs, be) /\ aware bs = aware we /\ aware be = aware ws.

(** Strict overlap of the booking ([bs], [be]) with the window ([ws], [we]). *)
Definition overlaps (bs be ws we : datetime) : bool :=
  (instant bs <? instant we) && (instant ws <? instant be).

Definition booking_overlaps (ws we : datetime) (ev : Event.t) : bool :=
  match window_of ev with
  | inr (bs, be) => overlaps bs be ws we
  | inl _ => false
  end.

(** A booking whose start is readable and not before the end [we] of the
    window. *)
Definition starts_after (we : datetime) (ev : Event.t) : Prop :=
  exists s bs,
    dateTime (Event.start ev) = Some s /\ fromisoformat s = inr bs /\
    aware bs = aware we /\ instant we <= instant bs.

End Readings.

(** ** Responses and request logs *)

Definition raised (e : exn) : Response :=
  error_response ("An error occurred: " ++ exn_str e).

(** The world after one more request. *)
Definition sent {S : Type} (w : world S) (s : S) (rqs : list request) : world S :=
  {| api_resource := s; requests := (requests w ++ rqs)%list |}.

(** The body of the booking request for a window. *)
Definition booking_body (summary : string) (start_dt end_dt : datetime) : Body.t :=
  {| Body.summary := summary;
     Body.start := {| dateTime := Some (isoformat start_dt); timeZone := Some "Asia/Kolkata" |};
     Body.end_ := {| dateTime := Some (isoformat end_dt); timeZone := Some "Asia/Kolkata" |} |}.

Definition suggestion (cs ce : datetime) : Response :=
  {| status := "conflict";
     message := "Preferred time is busy. Suggested next available slot:";
     event := None;
     suggested_start := Some (isoformat cs);
     suggested_end := Some (isoformat ce) |}.

Definition unavailable : Response :=
  {| status := "conflict";
     message := "Preferred time is busy and next suggested time is also unavailable. Please try another slot.";
     event := None; suggested_start := None; suggested_end := None |}.

Definition scheduled (created : Event.t) : Response :=
  {| status := "success"; message := "Meeting scheduled."; event := Some created;
     suggested_start := None; suggested_end := None |}.

(** ** The ids of the mock

    The events are numbered by position: the event at index [i] has the id
    that [insert_event] gives to the [i+1]-th event. *)
Definition numbered (events : list Event.t) : Prop :=
  forall i ev,
    nth_error events i = Some ev ->
    Event.id ev = "mock_event_" ++ str_nat (i + 1).

(** The request sequences a run of the tool can add to the log. *)
Definition run_shape (new : list request) : Prop :=
  new = [] \/
  (exists p, new = [ReqList p]) \/
  (exists p b, new = [ReqList p; ReqInsert b]) \/
  (exists p c, new = [ReqList p; ReqList c]).

(** ** The tools on concrete requests

    The definitions with which the model is run: the parser
    [Iso.fromisoformat] and the calendar [StoredCalendar]. *)

(** A phrase parser for the runs below.  It reads a phrase that is a full
    ISO timestamp (date, ['T'], time to the second or finer, offset if any),
    where nothing is left to take from [default], and raises [ParserError] on
    every other phrase, as the library does on a phrase in which it finds no
    date, the empty phrase among them. *)
Definition parse_iso_phrase (timestr : string) (default : datetime) : exc datetime :=
  match timestr with
  | EmptyString => raise ParserError "String does not contain a date: "
  | _ =>
      match get 10 timestr, (19 <=? String.length timestr)%nat, Iso.parse timestr with
      | Some "T"%char, true, Some d => inr d
      | _, _, _ => raise ParserError ("Unknown string format: " ++ timestr)
      end
  end.

Definition stored : CalendarAPI (list Event.t) := StoredCalendar Iso.fromisoformat.

(** A console that takes every text, and one whose stream was closed. *)
Definition open_stdout (text : string) : exc unit := inr tt.

Definition closed_stdout (text : string) : exc unit :=
  raise ValueError "I/O operation on closed file.".

Definition schedule (summary preferred_start preferred_end : string)
  : prog (list Event.t) Response :=
  @smart_schedule_meeting Iso.fromisoformat _ stored summary preferred_start preferred_end
                          "primary".

(** An empty calendar to which nothing was sent yet. *)
Definition fresh : world (list Event.t) := {| api_resource := []; requests := [] |}.

(** The calendar after some bookings, each made through the tool. *)
Fixpoint booked (meetings : list (string * string * string)) (w : world (list Event.t))
  : world (list Event.t) :=
  match meetings with
  | [] => w
  | (summary, s, e) :: rest => booked rest (snd (schedule summary s e w))
  end.

(** The reading of an ISO string in the zone. *)
Definition at_ (s : string) : datetime :=
  match localized Iso.fromisoformat s with
  | inr d => d
  | inl _ => {| wall := 0; tzinfo := None |}
  end.

(** A calendar with a booking inside the morning and one right after it. *)
Definition morning : list Event.t :=
  Eval vm_compute in
    api_resource
      (booked [("Review", "2025-07-17T10:15:00", "2025-07-17T10:30:00");
               ("Lunch", "2025-07-17T10:30:00", "2025-07-17T11:00:00")] fresh).

(** The calendar of scenario B: one booking from 10:15 to 11:00. *)
Definition reviewed : world (list Event.t) :=
  Eval vm_compute in
    booked [("Review", "2025-07-17T10:15:00", "2025-07-17T11:00:00")] fresh.

(** An all-day event, as the calendar service returns it: its start and end
    carry a date and no [dateTime]. *)
Definition all_day : Event.t :=
  {| Event.id := "holiday"; Event.status := "confirmed"; Event.summary := "Holiday";
     Event.start := {| dateTime := None; timeZone := None |};
     Event.end_ := {| dateTime := None; timeZone := None |};
     Event.htmlLink := "" |}.

(** An event that starts at 11:00 and has no end [dateTime]. *)
Definition open_ended : Event.t :=
  {| Event.id := "open"; Event.status := "confirmed"; Event.summary := "Workshop";
     Event.start := {| dateTime := Some "2025-07-17T11:00:00+05:30";
                       timeZone := Some "Asia/Kolkata" |};
     Event.end_ := {| dateTime := None; timeZone := None |};
     Event.htmlLink := "" |}.

(** A backend that answers every list request with the all-day event and
    refuses to insert. *)
Definition service_with_all_day : CalendarAPI unit :=
  {| execute_list := fun _ s => (inr {| items := Some [all_day] |}, s);
     execute_insert := fun _ s => (raise HttpError "forbidden", s) |}.

(** * Properties *)

(** ** The half-hour grid *)

Lemma on_half_hour_fields (d : datetime) :
  on_half_hour d ->
  (minute d = 0 \/ minute d = 30) /\ second d = 0 /\ microsecond d = 0.
Proof.
  unfold on_half_hour, minute, second, microsecond, HALF_HOUR,
    US_PER_MINUTE, US_PER_SECOND.
  intros Hm. Z.div_mod_to_equations. lia.
Qed.

(** The arithmetic of lines 94 to 99 on a reading [b] (the buffered start):
    the result is the first half-hour mark at or after [b] cut to the whole
    minute. *)
Lemma round_reading (b : Z) :
  let remainder := ((b / US_PER_MINUTE) mod 60) mod 30 in
  let w := if negb (remainder =? 0) then b + timedelta_minutes (30 - remainder) else b in
  let c := w - w mod US_PER_MINUTE in
  c mod HALF_HOUR = 0 /\
  b - b mod US_PER_MINUTE <= c < b - b mod US_PER_MINUTE + HALF_HOUR.
Proof.
  cbv zeta. unfold timedelta_minutes, HALF_HOUR, US_PER_MINUTE.
  destruct (Z.eqb_spec (((b / 60000000) mod 60) mod 30) 0) as [E | E]; simpl negb; cbv iota.
  - Z.div_mod_to_equations. lia.
  - Z.div_mod_to_equations. lia.
Qed.

(** ** Datetime arithmetic *)

Lemma dt_add_inr (d : datetime) (delta : timedelta) (d' : datetime) :
  dt_add d delta = inr d' ->
  wall d' = wall d + delta /\ tzinfo d' = tzinfo d /\ dt_valid d'.
Proof.
  unfold dt_add, dt_valid, in_range.
  destruct (0 <=? wall d + delta) eqn:Hlo; destruct (wall d + delta <? MAXWALL) eqn:Hhi;
    simpl; try discriminate.
  intros [= <-]. simpl. apply Z.leb_le in Hlo. apply Z.ltb_lt in Hhi.
  repeat split; auto.
Qed.

Lemma dt_add_in_range (d : datetime) (delta : timedelta) :
  0 <= wall d + delta < MAXWALL ->
  dt_add d delta = inr {| wall := wall d + delta; tzinfo := tzinfo d |}.
Proof.
  intros Hr. unfold dt_add, in_range.
  replace (0 <=? wall d + delta) with true by (symmetry; apply Z.leb_le; lia).
  replace (wall d + delta <? MAXWALL) with true by (symmetry; apply Z.ltb_lt; lia).
  reflexivity.
Qed.

Lemma dt_gt_same_zone (a b : datetime) (off : Z) :
  tzinfo a = Some off -> tzinfo b = Some off ->
  dt_gt a b = inr (wall b <? wall a).
Proof.
  intros Ha Hb. unfold dt_gt, dt_cmp. rewrite Ha, Hb. simpl. f_equal.
  destruct (Z.compare_spec (wall a - off) (wall b - off)) as [E | E | E];
    symmetry; [apply Z.ltb_ge | apply Z.ltb_ge | apply Z.ltb_lt]; lia.
Qed.

Lemma dt_lt_instant (a b : datetime) :
  aware a = aware b -> dt_lt a b = inr (instant a <? instant b).
Proof.
  unfold aware, dt_lt, dt_cmp, instant.
  destruct (tzinfo a) as [oa |], (tzinfo b) as [ob |]; try discriminate; intros _;
    reflexivity.
Qed.

Lemma dt_gt_instant (a b : datetime) :
  aware a = aware b -> dt_gt a b = inr (instant b <? instant a).
Proof.
  unfold aware, dt_gt, dt_cmp, instant.
  destruct (tzinfo a) as [oa |], (tzinfo b) as [ob |]; try discriminate; intros _; simpl;
    f_equal.
  - destruct (Z.compare_spec (wall a - oa) (wall b - ob)) as [E | E | E];
      symmetry; [apply Z.ltb_ge | apply Z.ltb_ge | apply Z.ltb_lt]; lia.
  - destruct (Z.compare_spec (wall a) (wall b)) as [E | E | E];
      symmetry; [apply Z.ltb_ge | apply Z.ltb_ge | apply Z.ltb_lt]; lia.
Qed.

Lemma dt_sub_same_zone (a b : datetime) (off : Z) :
  tzinfo a = Some off -> tzinfo b = Some off -> dt_sub a b = inr (wall a - wall b).
Proof.
  intros Ha Hb. unfold dt_sub. rewrite Ha, Hb. f_equal. lia.
Qed.

(** Inversion of a bind in the error monad. *)
Lemma exc_bind_inr {A B : Type} (m : exc A) (k : A -> exc B) (b : B) :
  exc_bind m k = inr b -> exists a, m = inr a /\ k a = inr b.
Proof.
  destruct m as [e | a]; simpl; [discriminate | eauto].
Qed.

Ltac exc_inv H :=
  let a := fresh "v" in
  let Ha := fresh "Hv" in
  apply exc_bind_inr in H; destruct H as (a & Ha & H).

Section SlotProposal.

Variable fromisoformat : string -> exc datetime.

Lemma localized_inr (s : string) (d : datetime) :
  localized fromisoformat s = inr d ->
  exists p, fromisoformat s = inr p /\ wall d = wall p
            /\ tzinfo d = Some kolkata_utcoffset.
Proof.
  unfold localized. intros Hl. exc_inv Hl.
  unfold localize, replace_tzinfo_None in Hl. simpl in Hl. injection Hl as <-.
  exists v. auto.
Qed.

(** The loop returns the latest of the starting value and the conflicts' ends:
    it is at or after each of them, and it is one of them. *)
Lemma latest_end_is_max (conflicts : list Event.t) :
  forall d0 d,
    tzinfo d0 = Some kolkata_utcoffset ->
    latest_end fromisoformat conflicts d0 = inr d ->
    tzinfo d = Some kolkata_utcoffset /\
    wall d0 <= wall d /\
    Forall (fun c => exists ce, conflict_end fromisoformat c = inr ce /\ wall ce <= wall d) conflicts /\
    (d = d0 \/ Exists (fun c => conflict_end fromisoformat c = inr d) conflicts).
Proof.
  induction conflicts as [| c rest IH]; intros d0 d Hz Hl; simpl in Hl.
  - injection Hl as <-. repeat split; auto. lia.
  - exc_inv Hl. exc_inv Hl. exc_inv Hl.
    rename v into e, v0 into ce, v1 into later.
    assert (Hce : conflict_end fromisoformat c = inr ce).
    { unfold conflict_end. rewrite Hv. exact Hv0. }
    destruct (localized_inr _ _ Hv0) as (p & _ & _ & Hzc).
    rewrite (dt_gt_same_zone _ _ _ Hzc Hz) in Hv1. injection Hv1 as <-.
    destruct (Z.ltb_spec (wall d0) (wall ce)) as [Hlt | Hge].
    + destruct (IH _ _ Hzc Hl) as (Hzd & Hle & Hall & Hone).
      repeat split; auto; try lia.
      * constructor; [exists ce; split; [exact Hce | lia] | exact Hall].
      * right. destruct Hone as [-> | Hex]; [left; exact Hce | right; exact Hex].
    + destruct (IH _ _ Hz Hl) as (Hzd & Hle & Hall & Hone).
      repeat split; auto.
      * constructor; [exists ce; split; [exact Hce | lia] | exact Hall].
      * destruct Hone as [-> | Hex]; [left; reflexivity | right; right; exact Hex].
Qed.

(** What the buffer and the rounding produce: a half-hour mark, the first one
    at or after the buffered reading cut to the whole minute. *)
Lemma buffer_and_round_inr (d c : datetime) :
  buffer_and_round d = inr c ->
  let buffered := wall d + timedelta_minutes 5 in
  tzinfo c = tzinfo d /\
  on_half_hour c /\
  buffered - buffered mod US_PER_MINUTE <= wall c
    < buffered - buffered mod US_PER_MINUTE + HALF_HOUR.
Proof.
  unfold buffer_and_round. intros Hb. exc_inv Hb. exc_inv Hb.
  injection Hb as <-.
  destruct (dt_add_inr _ _ _ Hv) as (Hw & Hz & _).
  pose proof (round_reading (wall v)) as Hr. cbv zeta in Hr.
  unfold minute in Hv0.
  assert (Hw0 : wall v0 =
                (if negb (((wall v / US_PER_MINUTE) mod 60) mod 30 =? 0)
                 then wall v + timedelta_minutes (30 - ((wall v / US_PER_MINUTE) mod 60) mod 30)
                 else wall v)
                /\ tzinfo v0 = tzinfo v).
  { destruct (negb (((wall v / US_PER_MINUTE) mod 60) mod 30 =? 0)).
    - destruct (dt_add_inr _ _ _ Hv0) as (Hw0 & Hz0 & _). auto.
    - injection Hv0 as <-. auto. }
  destruct Hw0 as (Hw0 & Hz0).
  cbv zeta. unfold on_half_hour, replace_second0_microsecond0. cbn [wall tzinfo].
  rewrite <- Hw, Hw0. split; [congruence | exact Hr].
Qed.

(** The candidate window in terms of the latest end. *)
Lemma suggest_slot_inr (conflicts : list Event.t) (start_dt end_dt cs ce : datetime) :
  tzinfo start_dt = Some kolkata_utcoffset ->
  tzinfo end_dt = Some kolkata_utcoffset ->
  suggest_slot fromisoformat conflicts start_dt end_dt = inr (cs, ce) ->
  exists latest,
    latest_end fromisoformat conflicts end_dt = inr latest /\
    buffer_and_round latest = inr cs /\
    tzinfo cs = Some kolkata_utcoffset /\
    tzinfo ce = Some kolkata_utcoffset /\
    wall ce = wall cs + (wall end_dt - wall start_dt).
Proof.
  intros Hzs Hze Hs. unfold suggest_slot in Hs.
  exc_inv Hs. exc_inv Hs. exc_inv Hs. exc_inv Hs. injection Hs as <- <-.
  rewrite (dt_sub_same_zone _ _ _ Hze Hzs) in Hv1. injection Hv1 as <-.
  destruct (latest_end_is_max _ _ _ Hze Hv) as (Hzl & _).
  destruct (buffer_and_round_inr _ _ Hv0) as (Hzc & _).
  destruct (dt_add_inr _ _ _ Hv2) as (Hw & Hz & _).
  exists v. repeat split; auto; congruence.
Qed.

End SlotProposal.

(** ** The conflict check of the mock backend *)

Lemma filter_exc_total {A : Type} (keep : A -> exc bool) (f : A -> bool) (l : list A) :
  Forall (fun x => keep x = inr (f x)) l -> filter_exc keep l = inr (filter f l).
Proof.
  induction 1 as [| x r Hx _ IH]; simpl; [reflexivity |].
  rewrite Hx, IH. reflexivity.
Qed.

Section ConflictCheck.

Variable fromisoformat : string -> exc datetime.

Lemma conflicts_with_overlaps (ws we : datetime) (ev : Event.t) :
  comparable_with fromisoformat ws we ev ->
  conflicts_with fromisoformat ws we ev = inr (booking_overlaps fromisoformat ws we ev).
Proof.
  intros (bs & be & Hw & Hs & He). unfold booking_overlaps. rewrite Hw.
  unfold window_of in Hw. exc_inv Hw. exc_inv Hw. exc_inv Hw. exc_inv Hw.
  injection Hw as <- <-.
  unfold conflicts_with, overlaps. rewrite Hv. simpl. rewrite Hv0. simpl.
  rewrite (dt_lt_instant _ _ Hs). simpl.
  destruct (instant v0 <? instant we); [| reflexivity].
  rewrite Hv1. simpl. rewrite Hv2. simpl. apply dt_gt_instant. exact He.
Qed.

Lemma list_events_filter (calendarId timeMin timeMax : string) (events : list Event.t)
      (ws we : datetime) :
  fromisoformat timeMin = inr ws ->
  fromisoformat timeMax = inr we ->
  Forall (comparable_with fromisoformat ws we) events ->
  list_events fromisoformat calendarId timeMin timeMax events
  = inr {| items := Some (filter (booking_overlaps fromisoformat ws we) events) |}.
Proof.
  intros Hmin Hmax Hall. unfold list_events. rewrite Hmin, Hmax. simpl.
  rewrite (filter_exc_total _ (booking_overlaps fromisoformat ws we)); [reflexivity |].
  eapply Forall_impl; [| exact Hall]. intros ev. apply conflicts_with_overlaps.
Qed.

(** C3. For a booking with window (bs, be) and a queried window (ws, we), the
    conflict check of the mock backend reports the booking if and only if
    bs < we and be > ws; a booking that only touches an end of the window
    (be = ws or bs = we) is not reported. *)
Theorem list_events_strict_overlap
        (calendarId timeMin timeMax : string) (events : list Event.t) (ws we : datetime) :
  fromisoformat timeMin = inr ws ->
  fromisoformat timeMax = inr we ->
  Forall (comparable_with fromisoformat ws we) events ->
  exists conflicting,
    list_events fromisoformat calendarId timeMin timeMax events
    = inr {| items := Some conflicting |} /\
    forall ev bs be,
      In ev events ->
      window_of fromisoformat ev = inr (bs, be) ->
      (In ev conflicting <-> instant bs < instant we /\ instant be > instant ws) /\
      (instant be = instant ws \/ instant bs = instant we -> ~ In ev conflicting).
Proof.
  intros Hmin Hmax Hall.
  exists (filter (booking_overlaps fromisoformat ws we) events). split.
  - apply list_events_filter; assumption.
  - intros ev bs be Hin Hw.
    assert (Hiff : In ev (filter (booking_overlaps fromisoformat ws we) events)
                   <-> instant bs < instant we /\ instant be > instant ws).
    { rewrite filter_In. unfold booking_overlaps, overlaps. rewrite Hw.
      rewrite andb_true_iff, !Z.ltb_lt. intuition lia. }
    split; [exact Hiff |].
    intros Htouch Hc. apply Hiff in Hc. lia.
Qed.

End ConflictCheck.

(** ** The candidate window *)

Section Candidate.

Variable fromisoformat : string -> exc datetime.

(** C5. The candidate window lasts exactly as long as the original window:
    candidate end minus candidate start equals original end minus original
    start. *)
Theorem candidate_keeps_duration
        (conflicts : list Event.t) (start_dt end_dt cs ce : datetime) :
  suggest_slot fromisoformat conflicts start_dt end_dt = inr (cs, ce) ->
  exists duration,
    dt_sub end_dt start_dt = inr duration /\ dt_sub ce cs = inr duration.
Proof.
  intros Hs. unfold suggest_slot in Hs.
  exc_inv Hs. exc_inv Hs. exc_inv Hs. exc_inv Hs. injection Hs as <- <-.
  exists v1. split; [exact Hv1 |].
  destruct (dt_add_inr _ _ _ Hv2) as (Hw & Hz & _).
  unfold dt_sub. rewrite Hz, Hw.
  destruct (tzinfo v0); f_equal; lia.
Qed.

(** C6. The candidate start has minute 0 or 30, and its seconds and
    microseconds are 0. *)
Theorem candidate_start_on_half_hour
        (conflicts : list Event.t) (start_dt end_dt cs ce : datetime) :
  suggest_slot fromisoformat conflicts start_dt end_dt = inr (cs, ce) ->
  (minute cs = 0 \/ minute cs = 30) /\ second cs = 0 /\ microsecond cs = 0.
Proof.
  intros Hs. unfold suggest_slot in Hs.
  exc_inv Hs. exc_inv Hs.
  apply on_half_hour_fields.
  destruct (buffer_and_round_inr _ _ Hv0) as (_ & Hh & _).
  exc_inv Hs. exc_inv Hs. injection Hs as <- <-. exact Hh.
Qed.

End Candidate.

(** ** The candidate start and the latest end *)

Section CandidateStart.

Variable fromisoformat : string -> exc datetime.

Lemma latest_end_returns (conflicts : list Event.t) :
  forall d0,
    tzinfo d0 = Some kolkata_utcoffset ->
    Forall (fun c => exists ce, conflict_end fromisoformat c = inr ce) conflicts ->
    exists d, latest_end fromisoformat conflicts d0 = inr d.
Proof.
  induction conflicts as [| c rest IH]; intros d0 Hz Hall; simpl.
  - eauto.
  - inversion Hall as [| ? ? (ce & Hce) Hrest]; subst.
    unfold conflict_end in Hce. exc_inv Hce. rewrite Hv. simpl. rewrite Hce. simpl.
    destruct (localized_inr _ _ _ Hce) as (_ & _ & _ & Hzc).
    rewrite (dt_gt_same_zone _ _ _ Hzc Hz). simpl.
    destruct (wall d0 <? wall ce); apply IH; assumption.
Qed.

Lemma buffer_and_round_returns (d : datetime) :
  0 <= wall d -> wall d + timedelta_minutes 35 < MAXWALL ->
  exists c, buffer_and_round d = inr c.
Proof.
  intros Hlo Hhi. unfold buffer_and_round.
  assert (H5 : 0 <= wall d + timedelta_minutes 5 < MAXWALL).
  { unfold timedelta_minutes, US_PER_MINUTE in *. lia. }
  rewrite (dt_add_in_range _ _ H5). cbn [exc_bind].
  set (b := {| wall := wall d + timedelta_minutes 5; tzinfo := tzinfo d |}).
  destruct (negb (minute b mod 30 =? 0)); [| cbn [exc_bind]; eauto].
  rewrite dt_add_in_range; [cbn [exc_bind]; eauto |].
  pose proof (Z.mod_pos_bound (minute b) 30 ltac:(lia)) as Hr.
  subst b. cbn [wall]. unfold timedelta_minutes, US_PER_MINUTE in *. lia.
Qed.

(** When every conflict end is readable and the years suffice, a candidate
    window is produced. *)
Lemma suggest_slot_returns (conflicts : list Event.t) (start_dt end_dt : datetime) :
  tzinfo start_dt = Some kolkata_utcoffset ->
  tzinfo end_dt = Some kolkata_utcoffset ->
  0 <= wall start_dt <= wall end_dt ->
  wall end_dt + timedelta_minutes 35 + (wall end_dt - wall start_dt) < MAXWALL ->
  Forall (fun c => exists ce,
              conflict_end fromisoformat c = inr ce /\
              wall ce + timedelta_minutes 35 + (wall end_dt - wall start_dt) < MAXWALL)
         conflicts ->
  exists cs ce, suggest_slot fromisoformat conflicts start_dt end_dt = inr (cs, ce).
Proof.
  intros Hzs Hze Hord Hend Hall.
  destruct (latest_end_returns conflicts end_dt Hze) as (latest & Hl).
  { eapply Forall_impl; [| exact Hall]. intros c (ce & Hce & _). eauto. }
  destruct (latest_end_is_max _ _ _ _ Hze Hl) as (Hzl & Hle & _ & Hone).
  assert (Hb : wall latest + timedelta_minutes 35 + (wall end_dt - wall start_dt) < MAXWALL).
  { destruct Hone as [-> | Hex]; [exact Hend |].
    apply Exists_exists in Hex. destruct Hex as (c & Hin & Hc).
    rewrite Forall_forall in Hall. destruct (Hall c Hin) as (ce & Hce & Hbound).
    unfold conflict_end in *. congruence. }
  destruct (buffer_and_round_returns latest) as (cs & Hcs); [lia | lia |].
  destruct (buffer_and_round_inr _ _ Hcs) as (Hzc & _ & Hlo & Hhi).
  unfold suggest_slot. rewrite Hl. cbn [exc_bind]. rewrite Hcs. cbn [exc_bind].
  rewrite (dt_sub_same_zone _ _ _ Hze Hzs). cbn [exc_bind].
  rewrite dt_add_in_range; [cbn [exc_bind]; eauto |].
  unfold HALF_HOUR, timedelta_minutes, US_PER_MINUTE in *.
  Z.div_mod_to_equations. lia.
Qed.

(** What the code computes for the candidate start: with [latest] the latest
    of the original end and the conflicts' ends and [buffered] five minutes
    later, the candidate start is the first half-hour mark at or after
    [buffered] cut to the whole minute.  It keeps more than four minutes after
    [latest], and the full five when [latest] has no seconds and no
    microseconds. *)
Lemma candidate_start_characterised
      (conflicts : list Event.t) (start_dt end_dt cs ce : datetime) :
  tzinfo start_dt = Some kolkata_utcoffset ->
  tzinfo end_dt = Some kolkata_utcoffset ->
  suggest_slot fromisoformat conflicts start_dt end_dt = inr (cs, ce) ->
  exists latest,
    latest_end fromisoformat conflicts end_dt = inr latest /\
    wall end_dt <= wall latest /\
    Forall (fun c => exists e, conflict_end fromisoformat c = inr e /\ wall e <= wall latest)
           conflicts /\
    (latest = end_dt \/ Exists (fun c => conflict_end fromisoformat c = inr latest) conflicts) /\
    let buffered := wall latest + timedelta_minutes 5 in
    on_half_hour cs /\
    buffered - buffered mod US_PER_MINUTE <= wall cs
      < buffered - buffered mod US_PER_MINUTE + HALF_HOUR /\
    wall latest + timedelta_minutes 4 < wall cs /\
    (second latest = 0 /\ microsecond latest = 0 ->
     buffered <= wall cs < buffered + HALF_HOUR).
Proof.
  intros Hzs Hze Hs.
  destruct (suggest_slot_inr _ _ _ _ _ _ Hzs Hze Hs) as (latest & Hl & Hb & _).
  destruct (latest_end_is_max _ _ _ _ Hze Hl) as (_ & Hle & Hall & Hone).
  destruct (buffer_and_round_inr _ _ Hb) as (_ & Hh & Hrange). cbv zeta in Hrange.
  exists latest. repeat (split; [assumption |]).
  cbv zeta. repeat (split; [assumption |]).
  unfold second, microsecond, HALF_HOUR, timedelta_minutes, US_PER_MINUTE, US_PER_SECOND in *.
  split; [| intros (Hsec & Hus)]; Z.div_mod_to_equations; lia.
Qed.

End CandidateStart.

(** ** The orchestration *)

Section Orchestrator.

Variable fromisoformat : string -> exc datetime.
Context {S : Type} `{CalendarAPI S}.

Lemma all_present (summary preferred_start preferred_end : string) :
  summary <> "" -> preferred_start <> "" -> preferred_end <> "" ->
  all [truthy summary; truthy preferred_start; truthy preferred_end] = true.
Proof.
  destruct summary, preferred_start, preferred_end; simpl; congruence.
Qed.

Ltac unfold_tool :=
  unfold smart_schedule_meeting, try_except, schedule_or_suggest, bind, lift,
    events_list, events_insert, ret, raised, sent, booking_body.

(** Symbolic execution of the tool on a request that passed the presence
    check and whose two ends were read: one equation per path. *)
Section Paths.

Variables (summary preferred_start preferred_end calendar_id : string).
Variables (w : world S) (start_dt end_dt : datetime).
Hypothesis Hpresent :
  all [truthy summary; truthy preferred_start; truthy preferred_end] = true.
Hypothesis Hstart : localized fromisoformat preferred_start = inr start_dt.
Hypothesis Hend : localized fromisoformat preferred_end = inr end_dt.

Let preferred := window_request calendar_id (isoformat start_dt) (isoformat end_dt).
Let run := smart_schedule_meeting fromisoformat summary preferred_start preferred_end
                                  calendar_id w.

Lemma path_list_fails (e : exn) (s1 : S) :
  execute_list preferred (api_resource w) = (inl e, s1) ->
  run = (inr (raised e), sent w s1 [ReqList preferred]).
Proof.
  intros Hl. subst run preferred. unfold_tool.
  rewrite Hpresent, Hstart, Hend. cbn [negb]. rewrite Hl. reflexivity.
Qed.

Lemma path_booked (reply : ListReply) (s1 s2 : S) (created : Event.t) :
  execute_list preferred (api_resource w) = (inr reply, s1) ->
  get_items reply = [] ->
  execute_insert {| insert_calendarId := calendar_id;
                    body := booking_body summary start_dt end_dt |} s1
  = (inr created, s2) ->
  run = (inr {| status := "success"; message := "Meeting scheduled.";
                event := Some created;
                suggested_start := None; suggested_end := None |},
         sent w s2 [ReqList preferred;
                    ReqInsert {| insert_calendarId := calendar_id;
                                 body := booking_body summary start_dt end_dt |}]).
Proof.
  intros Hl Hitems Hi. unfold booking_body in Hi. subst run preferred. unfold_tool.
  rewrite Hpresent, Hstart, Hend. cbn [negb]. rewrite Hl, Hitems.
  cbn [api_resource requests]. unfold time_zone. rewrite Hi.
  cbn [requests]. rewrite <- app_assoc. reflexivity.
Qed.

Lemma path_insert_fails (reply : ListReply) (s1 s2 : S) (e : exn) :
  execute_list preferred (api_resource w) = (inr reply, s1) ->
  get_items reply = [] ->
  execute_insert {| insert_calendarId := calendar_id;
                    body := booking_body summary start_dt end_dt |} s1
  = (inl e, s2) ->
  run = (inr (raised e),
         sent w s2 [ReqList preferred;
                    ReqInsert {| insert_calendarId := calendar_id;
                                 body := booking_body summary start_dt end_dt |}]).
Proof.
  intros Hl Hitems Hi. unfold booking_body in Hi. subst run preferred. unfold_tool.
  rewrite Hpresent, Hstart, Hend. cbn [negb]. rewrite Hl, Hitems.
  cbn [api_resource requests]. unfold time_zone. rewrite Hi.
  cbn [requests]. rewrite <- app_assoc. reflexivity.
Qed.

Lemma path_no_candidate (reply : ListReply) (s1 : S) (e : exn) :
  execute_list preferred (api_resource w) = (inr reply, s1) ->
  get_items reply <> [] ->
  suggest_slot fromisoformat (get_items reply) start_dt end_dt = inl e ->
  run = (inr (raised e), sent w s1 [ReqList preferred]).
Proof.
  intros Hl Hitems Hs. subst run preferred. unfold_tool.
  rewrite Hpresent, Hstart, Hend. cbn [negb]. rewrite Hl.
  destruct (get_items reply) as [| c rest] eqn:Hc; [congruence |].
  rewrite Hs. reflexivity.
Qed.

Section CandidatePaths.

Variables (reply : ListReply) (s1 : S) (cs ce : datetime).
Hypothesis Hlist : execute_list preferred (api_resource w) = (inr reply, s1).
Hypothesis Hitems : get_items reply <> [].
Hypothesis Hslot :
  suggest_slot fromisoformat (get_items reply) start_dt end_dt = inr (cs, ce).

Let candidate := window_request calendar_id (isoformat cs) (isoformat ce).

Lemma path_recheck_fails (e : exn) (s2 : S) :
  execute_list candidate s1 = (inl e, s2) ->
  run = (inr (raised e), sent w s2 [ReqList preferred; ReqList candidate]).
Proof.
  intros Hl2. subst run preferred candidate. unfold_tool.
  rewrite Hpresent, Hstart, Hend. cbn [negb]. rewrite Hlist.
  destruct (get_items reply) as [| c rest] eqn:Hc; [congruence |].
  rewrite Hslot. cbn [api_resource requests]. rewrite Hl2.
  rewrite <- app_assoc. reflexivity.
Qed.

Lemma path_suggested (reply2 : ListReply) (s2 : S) :
  execute_list candidate s1 = (inr reply2, s2) ->
  get_items reply2 = [] ->
  run = (inr {| status := "conflict";
                message := "Preferred time is busy. Suggested next available slot:";
                event := None;
                suggested_start := Some (isoformat cs);
                suggested_end := Some (isoformat ce) |},
         sent w s2 [ReqList preferred; ReqList candidate]).
Proof.
  intros Hl2 Hfree. subst run preferred candidate. unfold_tool.
  rewrite Hpresent, Hstart, Hend. cbn [negb]. rewrite Hlist.
  destruct (get_items reply) as [| c rest] eqn:Hc; [congruence |].
  rewrite Hslot. cbn [api_resource requests]. rewrite Hl2, Hfree.
  rewrite <- app_assoc. reflexivity.
Qed.

Lemma path_unavailable (reply2 : ListReply) (s2 : S) :
  execute_list candidate s1 = (inr reply2, s2) ->
  get_items reply2 <> [] ->
  run = (inr {| status := "conflict";
                message := "Preferred time is busy and next suggested time is also unavailable. Please try another slot.";
                event := None; suggested_start := None; suggested_end := None |},
         sent w s2 [ReqList preferred; ReqList candidate]).
Proof.
  intros Hl2 Hbusy. subst run preferred candidate. unfold_tool.
  rewrite Hpresent, Hstart, Hend. cbn [negb]. rewrite Hlist.
  destruct (get_items reply) as [| c rest] eqn:Hc; [congruence |].
  rewrite Hslot. cbn [api_resource requests]. rewrite Hl2.
  destruct (get_items reply2) as [| c2 rest2]; [congruence |].
  rewrite <- app_assoc. reflexivity.
Qed.

End CandidatePaths.

End Paths.

(** The tool returns; an exception of the [try] block becomes an error
    response. *)
Lemma smart_schedule_meeting_returns
      (summary preferred_start preferred_end calendar_id : string) (w : world S) :
  exists r w',
    smart_schedule_meeting fromisoformat summary preferred_start preferred_end calendar_id w
    = (inr r, w').
Proof.
  unfold smart_schedule_meeting, try_except, ret.
  destruct (negb (all [truthy summary; truthy preferred_start; truthy preferred_end]));
    [eauto |].
  destruct (schedule_or_suggest fromisoformat summary preferred_start preferred_end
                                calendar_id w) as [[e | r] w']; eauto.
Qed.

(** C1, as the code has it. A request in which the summary, the preferred
    start or the preferred end is missing is answered by the validation error
    and nothing is asked of the backend.  (The order of the preferred start and
    end is not looked at.) *)
Theorem missing_details_are_rejected
        (summary preferred_start preferred_end calendar_id : string) (w : world S) :
  summary = "" \/ preferred_start = "" \/ preferred_end = "" ->
  smart_schedule_meeting fromisoformat summary preferred_start preferred_end calendar_id w
  = (inr (error_response
            "Missing required meeting details (summary, preferred_start, preferred_end)."),
     w).
Proof.
  intros Hmissing. unfold smart_schedule_meeting.
  replace (all [truthy summary; truthy preferred_start; truthy preferred_end]) with false;
    [reflexivity |].
  destruct Hmissing as [-> | [-> | ->]]; simpl;
    [| destruct (truthy summary)
     | destruct (truthy summary), (truthy preferred_start)]; reflexivity.
Qed.


(** The conflict branch, path by path. *)
Lemma conflict_paths
        (summary preferred_start preferred_end calendar_id : string) (w : world S)
        (start_dt end_dt : datetime) (reply : ListReply) (s1 : S) :
  let preferred := window_request calendar_id (isoformat start_dt) (isoformat end_dt) in
  summary <> "" -> preferred_start <> "" -> preferred_end <> "" ->
  localized fromisoformat preferred_start = inr start_dt ->
  localized fromisoformat preferred_end = inr end_dt ->
  execute_list preferred (api_resource w) = (inr reply, s1) ->
  get_items reply <> [] ->
  exists r w' later,
    smart_schedule_meeting fromisoformat summary preferred_start preferred_end calendar_id w
    = (inr r, w') /\
    requests w' = (requests w ++ ReqList preferred :: later)%list /\
    Forall (fun rq => is_insert rq = false) later /\
    (List.length later <= 1)%nat /\
    event r = None /\
    match suggest_slot fromisoformat (get_items reply) start_dt end_dt with
    | inl e => r = raised e /\ later = [] /\ api_resource w' = s1
    | inr (cs, ce) =>
        let candidate := window_request calendar_id (isoformat cs) (isoformat ce) in
        later = [ReqList candidate] /\
        api_resource w' = snd (execute_list candidate s1) /\
        match fst (execute_list candidate s1) with
        | inl e => r = raised e
        | inr reply2 =>
            match get_items reply2 with
            | [] => r = suggestion cs ce
            | _ :: _ => r = unavailable
            end
        end
    end.
Proof.
  intros preferred Hs Hps Hpe Hstart Hend Hlist Hbusy.
  pose proof (all_present _ _ _ Hs Hps Hpe) as Hpresent.
  destruct (suggest_slot fromisoformat (get_items reply) start_dt end_dt)
    as [e | [cs ce]] eqn:Hslot.
  - eexists _, _, [].
    split; [exact (path_no_candidate _ _ _ _ _ _ _ Hpresent Hstart Hend _ _ _
                                     Hlist Hbusy Hslot) |].
    cbn [sent requests api_resource]. repeat split; auto.
  - cbv zeta. set (candidate := window_request calendar_id (isoformat cs) (isoformat ce)).
    destruct (execute_list candidate s1) as [[e | reply2] s2] eqn:Hl2.
    + eexists _, _, [ReqList candidate].
      split; [exact (path_recheck_fails _ _ _ _ _ _ _ Hpresent Hstart Hend _ _ _ _
                                        Hlist Hbusy Hslot _ _ Hl2) |].
      cbn [sent requests api_resource fst snd]. repeat split; auto.
    + destruct (get_items reply2) as [| c2 rest2] eqn:Hitems2.
      * eexists _, _, [ReqList candidate].
        split; [exact (path_suggested _ _ _ _ _ _ _ Hpresent Hstart Hend _ _ _ _
                                      Hlist Hbusy Hslot _ _ Hl2 Hitems2) |].
        cbn [sent requests api_resource fst snd]. rewrite Hitems2. repeat split; auto.
      * eexists _, _, [ReqList candidate].
        split; [refine (path_unavailable _ _ _ _ _ _ _ Hpresent Hstart Hend _ _ _ _
                                         Hlist Hbusy Hslot _ _ Hl2 _);
                rewrite Hitems2; discriminate |].
        cbn [sent requests api_resource fst snd]. rewrite Hitems2. repeat split; auto.
Qed.

(** C7. When the backend reports a conflict with the preferred window, no
    insert request is sent.  The tool computes one candidate window, asks the
    backend about it once, and answers with the suggestion if the candidate is
    free and with the unavailable response if it is busy; an exception on the
    way gives the error response. *)
Theorem conflict_makes_one_proposal
        (summary preferred_start preferred_end calendar_id : string) (w : world S)
        (start_dt end_dt : datetime) (reply : ListReply) (s1 : S) :
  let preferred := window_request calendar_id (isoformat start_dt) (isoformat end_dt) in
  summary <> "" -> preferred_start <> "" -> preferred_end <> "" ->
  localized fromisoformat preferred_start = inr start_dt ->
  localized fromisoformat preferred_end = inr end_dt ->
  execute_list preferred (api_resource w) = (inr reply, s1) ->
  get_items reply <> [] ->
  exists r w' later,
    smart_schedule_meeting fromisoformat summary preferred_start preferred_end calendar_id w
    = (inr r, w') /\
    requests w' = (requests w ++ ReqList preferred :: later)%list /\
    Forall (fun rq => is_insert rq = false) later /\
    (List.length later <= 1)%nat /\
    event r = None /\
    match suggest_slot fromisoformat (get_items reply) start_dt end_dt with
    | inl e => r = raised e /\ later = [] /\ api_resource w' = s1
    | inr (cs, ce) =>
        let candidate := window_request calendar_id (isoformat cs) (isoformat ce) in
        later = [ReqList candidate] /\
        api_resource w' = snd (execute_list candidate s1) /\
        match fst (execute_list candidate s1) with
        | inl e => r = raised e
        | inr reply2 =>
            match get_items reply2 with
            | [] => r = suggestion cs ce
            | _ :: _ => r = unavailable
            end
        end
    end.
Proof.
  exact (conflict_paths summary preferred_start preferred_end calendar_id w
                        start_dt end_dt reply s1).
Qed.

(** On a console that takes the text: the tool returns, and an exception of
    the [try] block becomes the error response. *)
Lemma try_failures_are_returned
        (summary preferred_start preferred_end calendar_id : string) (w : world S) :
  let run := smart_schedule_meeting fromisoformat summary preferred_start preferred_end
                                    calendar_id w in
  (exists r w', run = (inr r, w')) /\
  (forall e w1,
      all [truthy summary; truthy preferred_start; truthy preferred_end] = true ->
      schedule_or_suggest fromisoformat summary preferred_start preferred_end calendar_id w
      = (inl e, w1) ->
      run = (inr (raised e), w1)) /\
  (forall start_dt end_dt,
      all [truthy summary; truthy preferred_start; truthy preferred_end] = true ->
      localized fromisoformat preferred_start = inr start_dt ->
      localized fromisoformat preferred_end = inr end_dt ->
      let preferred := window_request calendar_id (isoformat start_dt) (isoformat end_dt) in
      let booking := {| insert_calendarId := calendar_id;
                        body := booking_body summary start_dt end_dt |} in
      (forall e s1,
          execute_list preferred (api_resource w) = (inl e, s1) ->
          run = (inr (raised e), sent w s1 [ReqList preferred])) /\
      (forall reply s1 e s2,
          execute_list preferred (api_resource w) = (inr reply, s1) ->
          get_items reply = [] ->
          execute_insert booking s1 = (inl e, s2) ->
          run = (inr (raised e), sent w s2 [ReqList preferred; ReqInsert booking])) /\
      (forall reply s1 cs ce e s2,
          execute_list preferred (api_resource w) = (inr reply, s1) ->
          get_items reply <> [] ->
          suggest_slot fromisoformat (get_items reply) start_dt end_dt = inr (cs, ce) ->
          let candidate := window_request calendar_id (isoformat cs) (isoformat ce) in
          execute_list candidate s1 = (inl e, s2) ->
          run = (inr (raised e), sent w s2 [ReqList preferred; ReqList candidate]))) /\
  (forall e, status (raised e) = "error" /\ status (raised e) <> "conflict"
             /\ status (raised e) <> status unavailable).
Proof.
  cbv zeta. split; [apply smart_schedule_meeting_returns |]. split; [| split].
  - intros e w1 Hpresent Hraise. unfold smart_schedule_meeting, try_except.
    rewrite Hpresent. cbn [negb]. cbv beta. rewrite Hraise. reflexivity.
  - intros start_dt end_dt Hpresent Hstart Hend. repeat split.
    + intros e s1 Hl. eapply path_list_fails; eassumption.
    + intros reply s1 e s2 Hl Hfree Hi. eapply path_insert_fails; eassumption.
    + intros reply s1 cs ce e s2 Hl Hbusy Hslot Hl2.
      eapply path_recheck_fails; eassumption.
  - intros e. simpl. repeat split; discriminate.
Qed.

(** With a console that takes the text, the tool with its print is the tool
    without it. *)
Lemma console_agrees (stdout_write : string -> exc unit)
      (summary preferred_start preferred_end calendar_id : string) (w : world S) :
  (forall text, stdout_write text = inr tt) ->
  Console.smart_schedule_meeting fromisoformat stdout_write
    summary preferred_start preferred_end calendar_id w
  = smart_schedule_meeting fromisoformat summary preferred_start preferred_end calendar_id w.
Proof.
  intros Hout.
  unfold Console.smart_schedule_meeting, smart_schedule_meeting, try_except,
    Console.print, bind, lift, ret.
  destruct (negb (all [truthy summary; truthy preferred_start; truthy preferred_end]));
    [reflexivity |].
  destruct (schedule_or_suggest fromisoformat summary preferred_start preferred_end
                                calendar_id w) as [[e | r] w1]; [| reflexivity].
  rewrite !Hout. reflexivity.
Qed.

(** An exception of the print in the handler leaves the tool. *)
Lemma print_failure_escapes (stdout_write : string -> exc unit)
      (summary preferred_start preferred_end calendar_id : string) (w w1 : world S)
      (e e' : exn) :
  all [truthy summary; truthy preferred_start; truthy preferred_end] = true ->
  schedule_or_suggest fromisoformat summary preferred_start preferred_end calendar_id w
  = (inl e, w1) ->
  stdout_write ("Error in smart_schedule_meeting: " ++ exn_str e) = inl e' ->
  Console.smart_schedule_meeting fromisoformat stdout_write
    summary preferred_start preferred_end calendar_id w
  = (inl e', w1).
Proof.
  intros Hpresent Hraise Hout.
  unfold Console.smart_schedule_meeting, try_except, Console.print, bind, lift, ret.
  rewrite Hpresent. cbn [negb]. cbv beta. rewrite Hraise, Hout. reflexivity.
Qed.

(** C8, as the code has it.  When the console takes what the handler prints,
    the tool never raises: every run returns a response, and an exception
    raised inside the [try] block, and so a failure of any of the three
    backend requests, is returned as the error response, whose status differs
    from the status of a conflict.  (An exception of the print itself is not
    caught.) *)
Theorem failures_are_returned
        (stdout_write : string -> exc unit)
        (summary preferred_start preferred_end calendar_id : string) (w : world S) :
  (forall text, stdout_write text = inr tt) ->
  let run := Console.smart_schedule_meeting fromisoformat stdout_write
               summary preferred_start preferred_end calendar_id w in
  (exists r w', run = (inr r, w')) /\
  (forall e w1,
      all [truthy summary; truthy preferred_start; truthy preferred_end] = true ->
      schedule_or_suggest fromisoformat summary preferred_start preferred_end calendar_id w
      = (inl e, w1) ->
      run = (inr (raised e), w1)) /\
  (forall start_dt end_dt,
      all [truthy summary; truthy preferred_start; truthy preferred_end] = true ->
      localized fromisoformat preferred_start = inr start_dt ->
      localized fromisoformat preferred_end = inr end_dt ->
      let preferred := window_request calendar_id (isoformat start_dt) (isoformat end_dt) in
      let booking := {| insert_calendarId := calendar_id;
                        body := booking_body summary start_dt end_dt |} in
      (forall e s1,
          execute_list preferred (api_resource w) = (inl e, s1) ->
          run = (inr (raised e), sent w s1 [ReqList preferred])) /\
      (forall reply s1 e s2,
          execute_list preferred (api_resource w) = (inr reply, s1) ->
          get_items reply = [] ->
          execute_insert booking s1 = (inl e, s2) ->
          run = (inr (raised e), sent w s2 [ReqList preferred; ReqInsert booking])) /\
      (forall reply s1 cs ce e s2,
          execute_list preferred (api_resource w) = (inr reply, s1) ->
          get_items reply <> [] ->
          suggest_slot fromisoformat (get_items reply) start_dt end_dt = inr (cs, ce) ->
          let candidate := window_request calendar_id (isoformat cs) (isoformat ce) in
          execute_list candidate s1 = (inl e, s2) ->
          run = (inr (raised e), sent w s2 [ReqList preferred; ReqList candidate]))) /\
  (forall e, status (raised e) = "error" /\ status (raised e) <> "conflict"
             /\ status (raised e) <> status unavailable).
Proof.
  intros Hout. cbv zeta. rewrite (console_agrees stdout_write _ _ _ _ w Hout).
  exact (try_failures_are_returned summary preferred_start preferred_end calendar_id w).
Qed.

End Orchestrator.

(** ** The offset of the inputs, and phrases that cannot be read *)

Section Inputs.

Variable fromisoformat : string -> exc datetime.
Variable dateutil_parse : string -> datetime -> exc datetime.
Context {S : Type} `{CalendarAPI S}.

(** Two ISO inputs that read the same wall clock are localized alike,
    whatever their offsets. *)
Lemma localized_ignores_offset (s1 s2 : string) (d1 d2 : datetime) :
  fromisoformat s1 = inr d1 -> fromisoformat s2 = inr d2 -> wall d1 = wall d2 ->
  localized fromisoformat s1 = inr {| wall := wall d1; tzinfo := Some kolkata_utcoffset |}
  /\ localized fromisoformat s1 = localized fromisoformat s2.
Proof.
  intros H1 H2 Hw. unfold localized. rewrite H1, H2. simpl.
  unfold localize, replace_tzinfo_None. simpl. rewrite Hw. auto.
Qed.

Lemma truthy_true (s : string) : s <> "" -> truthy s = true.
Proof.
  destruct s; simpl; congruence.
Qed.

(** C10. The two tools drop the UTC offset of their ISO inputs and read the
    wall clock in the zone Asia/Kolkata: two inputs with the same wall-clock
    fields and different offsets give the same run of [smart_schedule_meeting]
    (as preferred start and as preferred end) and the same answer of
    [parse_natural_datetime] (as the reference time). *)
Theorem offset_of_input_is_ignored (s1 s2 : string) (d1 d2 : datetime) :
  s1 <> "" -> s2 <> "" ->
  fromisoformat s1 = inr d1 -> fromisoformat s2 = inr d2 ->
  wall d1 = wall d2 ->
  localized fromisoformat s1
  = inr {| wall := wall d1; tzinfo := Some kolkata_utcoffset |} /\
  (forall summary preferred_end calendar_id (w : world S),
      smart_schedule_meeting fromisoformat summary s1 preferred_end calendar_id w
      = smart_schedule_meeting fromisoformat summary s2 preferred_end calendar_id w) /\
  (forall summary preferred_start calendar_id (w : world S),
      smart_schedule_meeting fromisoformat summary preferred_start s1 calendar_id w
      = smart_schedule_meeting fromisoformat summary preferred_start s2 calendar_id w) /\
  (forall input_string,
      parse_natural_datetime fromisoformat dateutil_parse input_string s1
      = parse_natural_datetime fromisoformat dateutil_parse input_string s2).
Proof.
  intros Hn1 Hn2 H1 H2 Hw.
  destruct (localized_ignores_offset _ _ _ _ H1 H2 Hw) as (Hloc & Heq).
  split; [exact Hloc |]. repeat split.
  - intros summary preferred_end calendar_id w.
    unfold smart_schedule_meeting, schedule_or_suggest.
    rewrite (truthy_true _ Hn1), (truthy_true _ Hn2), Heq. reflexivity.
  - intros summary preferred_start calendar_id w.
    unfold smart_schedule_meeting, schedule_or_suggest.
    rewrite (truthy_true _ Hn1), (truthy_true _ Hn2), Heq. reflexivity.
  - intros input_string. unfold parse_natural_datetime. rewrite Heq. reflexivity.
Qed.

(** C9. When the phrase parser cannot read the phrase (it raises, whatever
    the default), [parse_natural_datetime] returns an error with a non-empty
    message and no [parsed_datetime]. *)
Theorem unreadable_phrase_is_an_error (input_string current_datetime_str : string) :
  (forall default, exists e, dateutil_parse input_string default = inl e) ->
  exists e,
    parse_natural_datetime fromisoformat dateutil_parse input_string current_datetime_str
    = {| parsed_datetime := None;
         error := Some ("Could not parse natural datetime: " ++ exn_str e
                        ++ ". Please try a more specific format.") |}
    /\ "Could not parse natural datetime: " ++ exn_str e
       ++ ". Please try a more specific format." <> "".
Proof.
  intros Hraise. unfold parse_natural_datetime.
  destruct (localized fromisoformat current_datetime_str) as [e | current_dt].
  - exists e. split; [reflexivity | discriminate].
  - destruct (Hraise current_dt) as (e & He). cbn [exc_bind]. rewrite He.
    exists e. split; [reflexivity | discriminate].
Qed.

(** [parse_natural_datetime] answers with exactly one of its two keys. *)
Lemma parse_natural_datetime_one_key (input_string current_datetime_str : string) :
  let r := parse_natural_datetime fromisoformat dateutil_parse input_string
                                  current_datetime_str in
  (exists s, parsed_datetime r = Some s /\ error r = None) \/
  (exists m, parsed_datetime r = None /\ error r = Some m).
Proof.
  cbv zeta. unfold parse_natural_datetime.
  destruct (localized fromisoformat current_datetime_str) as [e | current_dt];
    cbn [exc_bind parsed_datetime error]; [right; eauto |].
  destruct (dateutil_parse input_string current_dt) as [e | parsed_dt];
    cbn [exc_bind parsed_datetime error]; [right; eauto |].
  destruct (tzinfo parsed_dt) as [off |].
  - destruct (astimezone parsed_dt off); cbn [exc_bind parsed_datetime error]; [right | left]; eauto.
  - destruct (localize parsed_dt); cbn [exc_bind parsed_datetime error]; [right | left]; eauto.
Qed.

End Inputs.

(** * The model at work *)

(** Scenario A: 10:00 to 10:30 on an empty calendar is booked as asked. *)
Example scenario_A :
  exists created w',
    schedule "Sync" "2025-07-17T10:00:00+05:30" "2025-07-17T10:30:00+05:30" fresh
    = (inr (scheduled created), w') /\
    Event.start created
    = {| dateTime := Some "2025-07-17T10:00:00+05:30"; timeZone := Some "Asia/Kolkata" |} /\
    Event.end_ created
    = {| dateTime := Some "2025-07-17T10:30:00+05:30"; timeZone := Some "Asia/Kolkata" |} /\
    api_resource w' = [created].
Proof.
  eexists. eexists. split; [vm_compute; reflexivity |]. simpl. auto.
Qed.

(** Scenario B: 10:00 to 10:30 against a booking of 10:15 to 11:00 gives the
    suggestion 11:30 to 12:00, and the calendar keeps its single booking. *)
Example scenario_B :
  let w := booked [("Review", "2025-07-17T10:15:00", "2025-07-17T11:00:00")] fresh in
  exists w',
    schedule "Sync" "2025-07-17T10:00:00+05:30" "2025-07-17T10:30:00+05:30" w
    = (inr (suggestion (at_ "2025-07-17T11:30:00") (at_ "2025-07-17T12:00:00")), w') /\
    suggested_start (suggestion (at_ "2025-07-17T11:30:00") (at_ "2025-07-17T12:00:00"))
    = Some "2025-07-17T11:30:00+05:30" /\
    api_resource w' = api_resource w.
Proof.
  eexists. split; [vm_compute; reflexivity |]. split; vm_compute; reflexivity.
Qed.

(** Scenario C: as B, with 11:30 to 12:00 booked too: unavailable. *)
Example scenario_C :
  let w := booked [("Review", "2025-07-17T10:15:00", "2025-07-17T11:00:00");
                   ("Lunch", "2025-07-17T11:30:00", "2025-07-17T12:00:00")] fresh in
  exists w',
    schedule "Sync" "2025-07-17T10:00:00+05:30" "2025-07-17T10:30:00+05:30" w
    = (inr unavailable, w') /\
    api_resource w' = api_resource w.
Proof.
  eexists. split; vm_compute; reflexivity.
Qed.

(** A window that touches a booking at one end is free. *)
Example adjacent_window_is_free :
  let w := booked [("Review", "2025-07-17T10:30:00", "2025-07-17T11:00:00")] fresh in
  exists created w',
    schedule "Sync" "2025-07-17T10:00:00" "2025-07-17T10:30:00" w
    = (inr (scheduled created), w').
Proof.
  eexists. eexists. vm_compute. reflexivity.
Qed.

(** An input that is not an ISO timestamp gives the error response. *)
Example malformed_start_is_an_error :
  fst (schedule "Sync" "tomorrow" "2025-07-17T10:30:00" fresh)
  = inr (error_response "An error occurred: Invalid isoformat string: 'tomorrow'").
Proof. vm_compute. reflexivity. Qed.

(** Scenario E: the empty phrase gives an error, not a timestamp. *)
Example scenario_E :
  parse_natural_datetime Iso.fromisoformat parse_iso_phrase "" "2025-07-17T09:00:00+05:30"
  = {| parsed_datetime := None;
       error := Some "Could not parse natural datetime: String does not contain a date: . Please try a more specific format." |}.
Proof. vm_compute. reflexivity. Qed.

(** A naive phrase is read in the zone; an aware one is converted to it. *)
Example phrase_is_read_in_the_zone :
  parse_natural_datetime Iso.fromisoformat parse_iso_phrase "2025-07-18T15:00:00"
                         "2025-07-17T09:00:00+05:30"
  = {| parsed_datetime := Some "2025-07-18T15:00:00+05:30"; error := None |} /\
  parse_natural_datetime Iso.fromisoformat parse_iso_phrase "2025-07-18T15:00:00+00:00"
                         "2025-07-17T09:00:00+05:30"
  = {| parsed_datetime := Some "2025-07-18T20:30:00+05:30"; error := None |}.
Proof. split; vm_compute; reflexivity. Qed.

(** ** The properties on concrete requests *)

(** C1 as stated does not hold: a request whose preferred start (11:00) is
    after its preferred end (10:00) passes the validation and the backend is
    asked about the window.  On the mock of the repository the answer is the
    error of the backend call, not the validation error; on a calendar that
    serves the requests the window is booked as it stands. *)
Lemma inverted_window_is_booked :
  let start_dt := at_ "2025-07-17T11:00:00+05:30" in
  let end_dt := at_ "2025-07-17T10:00:00+05:30" in
  let preferred := window_request "primary" (isoformat start_dt) (isoformat end_dt) in
  localized Iso.fromisoformat "2025-07-17T11:00:00+05:30" = inr start_dt /\
  localized Iso.fromisoformat "2025-07-17T10:00:00+05:30" = inr end_dt /\
  instant start_dt >= instant end_dt /\
  @smart_schedule_meeting Iso.fromisoformat _ MockGoogleCalendarAPI
    "Sync" "2025-07-17T11:00:00+05:30" "2025-07-17T10:00:00+05:30" "primary" fresh
  = (inr (error_response "An error occurred: 'list' object is not callable"),
     {| api_resource := []; requests := [ReqList preferred] |}) /\
  error_response "An error occurred: 'list' object is not callable"
  <> error_response
       "Missing required meeting details (summary, preferred_start, preferred_end)." /\
  exists created w',
    schedule "Sync" "2025-07-17T11:00:00+05:30" "2025-07-17T10:00:00+05:30" fresh
    = (inr (scheduled created), w') /\
    status (scheduled created) = "success" /\
    status (scheduled created) <> "error" /\
    dateTime (Event.start created) = Some "2025-07-17T11:00:00+05:30" /\
    dateTime (Event.end_ created) = Some "2025-07-17T10:00:00+05:30" /\
    api_resource w' = [created].
Proof.
  cbv zeta. split; [vm_compute; reflexivity |]. split; [vm_compute; reflexivity |].
  split; [vm_compute; discriminate |].
  split; [vm_compute; reflexivity |].
  split; [discriminate |].
  eexists. eexists. split; [vm_compute; reflexivity |].
  simpl. repeat split; try reflexivity. discriminate.
Qed.

(** A request without a summary, on the mock of the repository. *)
Lemma missing_details_are_rejected_witness :
  @smart_schedule_meeting Iso.fromisoformat _ MockGoogleCalendarAPI
    "" "2025-07-17T10:00:00+05:30" "2025-07-17T10:30:00+05:30" "primary" fresh
  = (inr (error_response
            "Missing required meeting details (summary, preferred_start, preferred_end)."),
     fresh).
Proof.
  apply (@missing_details_are_rejected Iso.fromisoformat _ MockGoogleCalendarAPI).
  left. reflexivity.
Defined.



(** The window 10:00 to 10:30 against the two bookings of [morning]. *)
Lemma list_events_strict_overlap_witness :
  exists conflicting,
    list_events Iso.fromisoformat "primary"
                "2025-07-17T10:00:00+05:30" "2025-07-17T10:30:00+05:30" morning
    = inr {| items := Some conflicting |} /\
    forall ev bs be,
      In ev morning ->
      window_of Iso.fromisoformat ev = inr (bs, be) ->
      (In ev conflicting
       <-> instant bs < instant (at_ "2025-07-17T10:30:00")
           /\ instant be > instant (at_ "2025-07-17T10:00:00")) /\
      (instant be = instant (at_ "2025-07-17T10:00:00")
       \/ instant bs = instant (at_ "2025-07-17T10:30:00") -> ~ In ev conflicting).
Proof.
  apply (list_events_strict_overlap Iso.fromisoformat "primary"
           "2025-07-17T10:00:00+05:30" "2025-07-17T10:30:00+05:30" morning
           (at_ "2025-07-17T10:00:00") (at_ "2025-07-17T10:30:00")).
  - vm_compute. reflexivity.
  - vm_compute. reflexivity.
  - unfold morning.
    apply Forall_cons; [| apply Forall_cons; [| apply Forall_nil]];
      (eexists; eexists; split; [vm_compute; reflexivity | split; reflexivity]).
Defined.

(** The candidate for 10:00 to 10:30 against [morning] is 11:30 to 12:00. *)
Lemma candidate_keeps_duration_witness :
  exists duration,
    dt_sub (at_ "2025-07-17T10:30:00") (at_ "2025-07-17T10:00:00") = inr duration /\
    dt_sub (at_ "2025-07-17T12:00:00") (at_ "2025-07-17T11:30:00") = inr duration.
Proof.
  apply (candidate_keeps_duration Iso.fromisoformat morning
           (at_ "2025-07-17T10:00:00") (at_ "2025-07-17T10:30:00")).
  vm_compute. reflexivity.
Defined.

(** The same candidate starts on a half-hour mark. *)
Lemma candidate_start_on_half_hour_witness :
  (minute (at_ "2025-07-17T11:30:00") = 0 \/ minute (at_ "2025-07-17T11:30:00") = 30)
  /\ second (at_ "2025-07-17T11:30:00") = 0
  /\ microsecond (at_ "2025-07-17T11:30:00") = 0.
Proof.
  apply (candidate_start_on_half_hour Iso.fromisoformat morning
           (at_ "2025-07-17T10:00:00") (at_ "2025-07-17T10:30:00")
           (at_ "2025-07-17T11:30:00") (at_ "2025-07-17T12:00:00")).
  vm_compute. reflexivity.
Defined.

(** 10:00 to 10:30 on the calendar [morning]: one conflict, a suggestion, no
    insert request. *)
Lemma conflict_makes_one_proposal_witness :
  exists r w',
    schedule "Sync" "2025-07-17T10:00:00" "2025-07-17T10:30:00"
             {| api_resource := morning; requests := [] |}
    = (inr r, w') /\
    Forall (fun rq => is_insert rq = false) (requests w') /\
    r = suggestion (at_ "2025-07-17T11:00:00") (at_ "2025-07-17T11:30:00").
Proof.
  edestruct (@conflict_makes_one_proposal Iso.fromisoformat _ stored
               "Sync" "2025-07-17T10:00:00" "2025-07-17T10:30:00" "primary"
               {| api_resource := morning; requests := [] |})
    as (r & w' & later & Hrun & Hreq & Hlist & _ & _ & Hpath).
  - discriminate.
  - discriminate.
  - discriminate.
  - vm_compute. reflexivity.
  - vm_compute. reflexivity.
  - vm_compute. reflexivity.
  - vm_compute. discriminate.
  - exists r, w'. split; [exact Hrun |]. split.
    + rewrite Hreq. constructor; [reflexivity | exact Hlist].
    + vm_compute in Hpath. destruct Hpath as (_ & _ & Hr). exact Hr.
Defined.

(** C8 as stated does not hold: with the stream of the console closed, the
    print of the handler raises and its exception leaves the tool.  The
    request is well formed; on the mock of the repository the list request
    fails, the handler prints, and [ValueError] comes out instead of a
    response. *)
Lemma closed_console_lets_the_error_out :
  @Console.smart_schedule_meeting Iso.fromisoformat closed_stdout _ MockGoogleCalendarAPI
    "Sync" "2025-07-17T10:00:00" "2025-07-17T10:30:00" "primary" fresh
  = (inl (Exception ValueError "I/O operation on closed file."),
     {| api_resource := [];
        requests := [ReqList (window_request "primary" "2025-07-17T10:00:00+05:30"
                                             "2025-07-17T10:30:00+05:30")] |}).
Proof. vm_compute. reflexivity. Qed.

(** An unreadable preferred end on a console that takes the text still gives
    a response. *)
Lemma failures_are_returned_witness :
  exists r w',
    @Console.smart_schedule_meeting Iso.fromisoformat open_stdout _ MockGoogleCalendarAPI
      "Sync" "2025-07-17T10:00:00" "not a time" "primary" fresh = (inr r, w').
Proof.
  exact (proj1 (@failures_are_returned Iso.fromisoformat _ MockGoogleCalendarAPI
                  open_stdout "Sync" "2025-07-17T10:00:00" "not a time" "primary" fresh
                  (fun text => eq_refl))).
Defined.

(** The empty phrase. *)
Lemma unreadable_phrase_is_an_error_witness :
  exists e,
    parse_natural_datetime Iso.fromisoformat parse_iso_phrase ""
                           "2025-07-17T09:00:00+05:30"
    = {| parsed_datetime := None;
         error := Some ("Could not parse natural datetime: " ++ exn_str e
                        ++ ". Please try a more specific format.") |}
    /\ "Could not parse natural datetime: " ++ exn_str e
       ++ ". Please try a more specific format." <> "".
Proof.
  apply (unreadable_phrase_is_an_error Iso.fromisoformat parse_iso_phrase).
  intros default. eexists. reflexivity.
Defined.

(** 10:00 at -08:00 and 10:00 at +05:30 are the same input to the tools. *)
Lemma offset_of_input_is_ignored_witness :
  localized Iso.fromisoformat "2025-07-17T10:00:00-08:00"
  = inr {| wall := wall (at_ "2025-07-17T10:00:00"); tzinfo := Some kolkata_utcoffset |} /\
  (forall summary preferred_end calendar_id (w : world (list Event.t)),
      @smart_schedule_meeting Iso.fromisoformat _ stored summary
        "2025-07-17T10:00:00-08:00" preferred_end calendar_id w
      = @smart_schedule_meeting Iso.fromisoformat _ stored summary
          "2025-07-17T10:00:00+05:30" preferred_end calendar_id w) /\
  (forall summary preferred_start calendar_id (w : world (list Event.t)),
      @smart_schedule_meeting Iso.fromisoformat _ stored summary preferred_start
        "2025-07-17T10:00:00-08:00" calendar_id w
      = @smart_schedule_meeting Iso.fromisoformat _ stored summary preferred_start
          "2025-07-17T10:00:00+05:30" calendar_id w) /\
  (forall input_string,
      parse_natural_datetime Iso.fromisoformat parse_iso_phrase input_string
                             "2025-07-17T10:00:00-08:00"
      = parse_natural_datetime Iso.fromisoformat parse_iso_phrase input_string
                               "2025-07-17T10:00:00+05:30").
Proof.
  apply (@offset_of_input_is_ignored Iso.fromisoformat parse_iso_phrase _ stored
           "2025-07-17T10:00:00-08:00" "2025-07-17T10:00:00+05:30"
           {| wall := wall (at_ "2025-07-17T10:00:00"); tzinfo := Some (- (8 * US_PER_HOUR)) |}
           (at_ "2025-07-17T10:00:00")).
  - discriminate.
  - discriminate.
  - vm_compute. reflexivity.
  - vm_compute. reflexivity.
  - reflexivity.
Defined.

(** C4 at work: the candidate start can precede the buffered instant.  With a
    conflict that ends at 11:25:20 the buffered instant is 11:30:20; its minute
    is 30, so nothing is added, and the seconds are dropped: the candidate
    starts at 11:30:00, twenty seconds before the buffered instant. *)
Theorem candidate_start_precedes_buffered_instant :
  let w := booked [("Review", "2025-07-17T10:15:00", "2025-07-17T11:25:20")] fresh in
  let start_dt := at_ "2025-07-17T10:00:00" in
  let end_dt := at_ "2025-07-17T10:30:00" in
  let latest := at_ "2025-07-17T11:25:20" in
  let cs := at_ "2025-07-17T11:30:00" in
  let ce := at_ "2025-07-17T12:00:00" in
  latest_end Iso.fromisoformat (api_resource w) end_dt = inr latest /\
  dt_add latest (timedelta_minutes 5) = inr (at_ "2025-07-17T11:30:20") /\
  suggest_slot Iso.fromisoformat (api_resource w) start_dt end_dt = inr (cs, ce) /\
  wall cs < wall latest + timedelta_minutes 5 /\
  fst (schedule "Sync" "2025-07-17T10:00:00" "2025-07-17T10:30:00" w)
  = inr (suggestion cs ce) /\
  suggested_start (suggestion cs ce) = Some "2025-07-17T11:30:00+05:30".
Proof.
  cbv zeta. repeat split; vm_compute; reflexivity.
Qed.

(** * Further properties of the code *)

(** ** The mock backend: listing and inserting *)

Lemma filter_exc_app {A : Type} (keep : A -> exc bool) (l1 l2 : list A) :
  filter_exc keep (l1 ++ l2)%list
  = (let? a := filter_exc keep l1 in
     let? b := filter_exc keep l2 in
     inr (a ++ b)%list).
Proof.
  induction l1 as [| x r IH]; simpl.
  - destruct (filter_exc keep l2); reflexivity.
  - destruct (keep x) as [e | b]; simpl; [reflexivity |].
    rewrite IH. destruct (filter_exc keep r) as [e | a]; simpl; [reflexivity |].
    destruct (filter_exc keep l2) as [e | c]; simpl; [reflexivity |].
    destruct b; reflexivity.
Qed.

Section MockListing.

Variable fromisoformat : string -> exc datetime.

Lemma conflicts_with_starts_after (ws we : datetime) (ev : Event.t) :
  starts_after fromisoformat we ev ->
  conflicts_with fromisoformat ws we ev = inr false
  /\ booking_overlaps fromisoformat ws we ev = false.
Proof.
  intros (s & bs & Hs & Hp & Ha & Hle).
  unfold conflicts_with, getitem_dateTime. rewrite Hs. cbn [exc_bind]. rewrite Hp.
  cbn [exc_bind]. rewrite (dt_lt_instant _ _ Ha). cbn [exc_bind].
  assert (Hlt : (instant bs <? instant we) = false) by (apply Z.ltb_ge; exact Hle).
  rewrite Hlt. split; [reflexivity |].
  unfold booking_overlaps, window_of, getitem_dateTime. rewrite Hs. cbn [exc_bind].
  rewrite Hp. cbn [exc_bind].
  destruct (dateTime (Event.end_ ev)) as [e |]; cbn [exc_bind]; [| reflexivity].
  destruct (fromisoformat e) as [x | be]; cbn [exc_bind]; [reflexivity |].
  unfold overlaps. rewrite Hlt. reflexivity.
Qed.

(** The listing over bookings that are readable or start after the window. *)
Lemma list_events_skips_later_bookings_aux
        (calendarId timeMin timeMax : string) (events : list Event.t) (ws we : datetime) :
  fromisoformat timeMin = inr ws ->
  fromisoformat timeMax = inr we ->
  Forall (fun ev => comparable_with fromisoformat ws we ev \/ starts_after fromisoformat we ev) events ->
  list_events fromisoformat calendarId timeMin timeMax events
  = inr {| items := Some (filter (booking_overlaps fromisoformat ws we) events) |}.
Proof.
  intros Hmin Hmax Hall. unfold list_events. rewrite Hmin, Hmax. cbn [exc_bind].
  rewrite (filter_exc_total _ (booking_overlaps fromisoformat ws we)); [reflexivity |].
  eapply Forall_impl; [| exact Hall]. intros ev [Hc | Hlater].
  - apply conflicts_with_overlaps. exact Hc.
  - destruct (conflicts_with_starts_after ws we ev Hlater) as (-> & ->). reflexivity.
Qed.

(** X1. A stored booking that starts at or after the end of the queried
    window is skipped without its end being read: with such bookings in the
    calendar, even with a missing or unreadable end, the listing succeeds and
    returns exactly the bookings that overlap the window, in stored order. *)
Theorem list_events_skips_later_bookings
        (calendarId timeMin timeMax : string) (events : list Event.t) (ws we : datetime) :
  fromisoformat timeMin = inr ws ->
  fromisoformat timeMax = inr we ->
  Forall (fun ev => comparable_with fromisoformat ws we ev \/ starts_after fromisoformat we ev) events ->
  list_events fromisoformat calendarId timeMin timeMax events
  = inr {| items := Some (filter (booking_overlaps fromisoformat ws we) events) |}.
Proof.
  apply list_events_skips_later_bookings_aux.
Qed.

(** X2. A stored booking without a start [dateTime] (an all-day event) makes
    the listing raise [KeyError] when every booking stored before it is
    readable: the bookings after it are not looked at and no list is
    returned. *)
Theorem list_events_raises_on_all_day_booking
        (calendarId timeMin timeMax : string) (before after : list Event.t)
        (bad : Event.t) (ws we : datetime) :
  fromisoformat timeMin = inr ws ->
  fromisoformat timeMax = inr we ->
  Forall (fun ev => comparable_with fromisoformat ws we ev \/ starts_after fromisoformat we ev) before ->
  dateTime (Event.start bad) = None ->
  list_events fromisoformat calendarId timeMin timeMax (before ++ bad :: after)%list
  = raise KeyError "'dateTime'".
Proof.
  intros Hmin Hmax Hall Hbad. unfold list_events. rewrite Hmin, Hmax. cbn [exc_bind].
  rewrite filter_exc_app.
  rewrite (filter_exc_total _ (booking_overlaps fromisoformat ws we)).
  - cbn [exc_bind filter_exc]. unfold conflicts_with, getitem_dateTime. rewrite Hbad.
    reflexivity.
  - eapply Forall_impl; [| exact Hall]. intros ev [Hc | Hlater].
    + apply conflicts_with_overlaps. exact Hc.
    + destruct (conflicts_with_starts_after ws we ev Hlater) as (-> & ->). reflexivity.
Qed.

(** X3. Inserting and then listing: when the listing of a window succeeded,
    then after [insert_event] of a body with a readable start and end the same
    listing returns the earlier answer, followed by the new event exactly when
    its window overlaps the queried one. *)
Theorem inserted_event_is_listed
        (calendarId timeMin timeMax : string) (events old : list Event.t)
        (eventBody : Body.t) (s e : string) (ws we bs be : datetime) :
  fromisoformat timeMin = inr ws ->
  fromisoformat timeMax = inr we ->
  list_events fromisoformat calendarId timeMin timeMax events = inr {| items := Some old |} ->
  dateTime (Body.start eventBody) = Some s -> fromisoformat s = inr bs ->
  dateTime (Body.end_ eventBody) = Some e -> fromisoformat e = inr be ->
  aware bs = aware we -> aware be = aware ws ->
  let (new_event, events') := insert_event calendarId eventBody events in
  list_events fromisoformat calendarId timeMin timeMax events'
  = inr {| items := Some (old ++ (if overlaps bs be ws we then [new_event] else []))%list |}.
Proof.
  intros Hmin Hmax Hold Hs Hbs He Hbe Has Hae.
  unfold insert_event.
  set (new_event := {| Event.id := _ |}).
  unfold list_events in *. rewrite Hmin, Hmax in *. cbn [exc_bind] in *.
  rewrite filter_exc_app.
  destruct (filter_exc (conflicts_with fromisoformat ws we) events) as [x | old'];
    cbn [exc_bind] in *; [discriminate |].
  injection Hold as ->.
  assert (Hc : comparable_with fromisoformat ws we new_event).
  { exists bs, be. split; [| auto].
    unfold window_of, getitem_dateTime. subst new_event. cbn [Event.start Event.end_].
    rewrite Hs, He. cbn [exc_bind]. rewrite Hbs. cbn [exc_bind]. rewrite Hbe. reflexivity. }
  cbn [filter_exc]. rewrite (conflicts_with_overlaps _ _ _ _ Hc). cbn [exc_bind].
  assert (Hw : booking_overlaps fromisoformat ws we new_event = overlaps bs be ws we).
  { unfold booking_overlaps, window_of, getitem_dateTime. subst new_event.
    cbn [Event.start Event.end_]. rewrite Hs, He. cbn [exc_bind]. rewrite Hbs.
    cbn [exc_bind]. rewrite Hbe. reflexivity. }
  rewrite Hw. reflexivity.
Qed.

End MockListing.

(** ** The runs of [smart_schedule_meeting] *)

Section Runs.

Variable fromisoformat : string -> exc datetime.
Context {S : Type} `{CalendarAPI S}.

(** Every run of the tool, path by path. *)
Lemma run_cases (summary preferred_start preferred_end calendar_id : string) (w : world S) :
  let run := smart_schedule_meeting fromisoformat summary preferred_start preferred_end
                                    calendar_id w in
  (all [truthy summary; truthy preferred_start; truthy preferred_end] = false /\
   run = (inr (error_response
                 "Missing required meeting details (summary, preferred_start, preferred_end)."),
          w)) \/
  (all [truthy summary; truthy preferred_start; truthy preferred_end] = true /\
   ((exists e, localized fromisoformat preferred_start = inl e /\ run = (inr (raised e), w)) \/
    (exists start_dt e,
        localized fromisoformat preferred_start = inr start_dt /\
        localized fromisoformat preferred_end = inl e /\ run = (inr (raised e), w)) \/
    (exists start_dt end_dt,
        localized fromisoformat preferred_start = inr start_dt /\
        localized fromisoformat preferred_end = inr end_dt /\
        let preferred :=
          window_request calendar_id (isoformat start_dt) (isoformat end_dt) in
        let booking := {| insert_calendarId := calendar_id;
                          body := booking_body summary start_dt end_dt |} in
        match execute_list preferred (api_resource w) with
        | (inl e, s1) => run = (inr (raised e), sent w s1 [ReqList preferred])
        | (inr reply, s1) =>
            match get_items reply with
            | [] =>
                match execute_insert booking s1 with
                | (inl e, s2) =>
                    run = (inr (raised e), sent w s2 [ReqList preferred; ReqInsert booking])
                | (inr created, s2) =>
                    run = (inr (scheduled created),
                           sent w s2 [ReqList preferred; ReqInsert booking])
                end
            | _ :: _ =>
                match suggest_slot fromisoformat (get_items reply) start_dt end_dt with
                | inl e => run = (inr (raised e), sent w s1 [ReqList preferred])
                | inr (cs, ce) =>
                    let candidate :=
                      window_request calendar_id (isoformat cs) (isoformat ce) in
                    match execute_list candidate s1 with
                    | (inl e, s2) =>
                        run = (inr (raised e),
                               sent w s2 [ReqList preferred; ReqList candidate])
                    | (inr reply2, s2) =>
                        run = (inr (match get_items reply2 with
                                    | [] => suggestion cs ce
                                    | _ :: _ => unavailable
                                    end),
                               sent w s2 [ReqList preferred; ReqList candidate])
                    end
                end
            end
        end))).
Proof.
  cbv zeta.
  destruct (all [truthy summary; truthy preferred_start; truthy preferred_end]) eqn:Hpresent.
  2:{ left. split; [reflexivity |]. unfold smart_schedule_meeting. rewrite Hpresent.
      reflexivity. }
  right. split; [reflexivity |].
  destruct (localized fromisoformat preferred_start) as [e | start_dt] eqn:Hstart.
  { left. exists e. split; [reflexivity |].
    unfold smart_schedule_meeting, try_except, schedule_or_suggest, bind, lift, ret.
    rewrite Hpresent, Hstart. reflexivity. }
  destruct (localized fromisoformat preferred_end) as [e | end_dt] eqn:Hend.
  { right. left. exists start_dt, e. repeat split.
    unfold smart_schedule_meeting, try_except, schedule_or_suggest, bind, lift, ret.
    rewrite Hpresent, Hstart, Hend. reflexivity. }
  right. right. exists start_dt, end_dt. split; [reflexivity |]. split; [reflexivity |].
  set (preferred := window_request calendar_id (isoformat start_dt) (isoformat end_dt)).
  set (booking := {| insert_calendarId := calendar_id;
                     body := booking_body summary start_dt end_dt |}).
  destruct (execute_list preferred (api_resource w)) as [[e | reply] s1] eqn:Hlist.
  { eapply path_list_fails; eassumption. }
  destruct (get_items reply) as [| c rest] eqn:Hitems.
  - destruct (execute_insert booking s1) as [[e | created] s2] eqn:Hins.
    + eapply path_insert_fails; eassumption.
    + eapply path_booked; eassumption.
  - assert (Hbusy : get_items reply <> []) by (rewrite Hitems; discriminate).
    rewrite <- Hitems.
    destruct (suggest_slot fromisoformat (get_items reply) start_dt end_dt)
      as [e | [cs ce]] eqn:Hslot.
    { eapply path_no_candidate; eassumption. }
    set (candidate := window_request calendar_id (isoformat cs) (isoformat ce)).
    destruct (execute_list candidate s1) as [[e | reply2] s2] eqn:Hl2.
    { eapply path_recheck_fails; eassumption. }
    destruct (get_items reply2) as [| c2 rest2] eqn:Hitems2.
    + eapply path_suggested; eassumption.
    + eapply path_unavailable; try eassumption. rewrite Hitems2. discriminate.
Qed.

(** X4. When the preferred start or the preferred end cannot be read, the
    tool answers with the error response that carries the parser's message and
    sends nothing to the backend: the calendar and the request log are as
    before. *)
Theorem unreadable_window_sends_nothing
        (summary preferred_start preferred_end calendar_id : string) (w : world S) (e : exn) :
  summary <> "" -> preferred_start <> "" -> preferred_end <> "" ->
  localized fromisoformat preferred_start = inl e \/
  ((exists start_dt, localized fromisoformat preferred_start = inr start_dt) /\
   localized fromisoformat preferred_end = inl e) ->
  smart_schedule_meeting fromisoformat summary preferred_start preferred_end calendar_id w
  = (inr (error_response ("An error occurred: " ++ exn_str e)), w).
Proof.
  intros Hs Hps Hpe Hbad.
  pose proof (all_present _ _ _ Hs Hps Hpe) as Hpresent.
  unfold smart_schedule_meeting, try_except, schedule_or_suggest, bind, lift, ret.
  rewrite Hpresent. cbn [negb].
  destruct Hbad as [Hstart | ((start_dt & Hstart) & Hend)].
  - rewrite Hstart. reflexivity.
  - rewrite Hstart, Hend. reflexivity.
Qed.

(** X5. Whatever the request and whatever the backend answers, a run sends
    no request, or one list request, or a list request followed by one insert
    request, or two list requests.  A response with status success comes only
    from a run that listed and then inserted a body with the summary of the
    request, and a run that sent nothing answers with status error. *)
Theorem run_sends_at_most_two_requests
        (summary preferred_start preferred_end calendar_id : string) (w : world S) :
  exists r w' new,
    smart_schedule_meeting fromisoformat summary preferred_start preferred_end calendar_id w
    = (inr r, w') /\
    requests w' = (requests w ++ new)%list /\
    run_shape new /\
    (status r = "success" ->
     exists p b created,
       new = [ReqList p; ReqInsert b] /\ event r = Some created /\
       Body.summary (body b) = summary) /\
    (new = [] -> status r = "error").
Proof.
  pose proof (run_cases summary preferred_start preferred_end calendar_id w) as Hc.
  cbv zeta in Hc. unfold run_shape.
  destruct Hc as [(_ & ->) | (_ & [(e & _ & ->) | [(sd & e & _ & _ & ->) | Hc]])].
  - exists (error_response
              "Missing required meeting details (summary, preferred_start, preferred_end)."),
      w, []. rewrite app_nil_r. repeat split; auto. discriminate.
  - exists (raised e), w, []. rewrite app_nil_r. repeat split; auto. discriminate.
  - exists (raised e), w, []. rewrite app_nil_r. repeat split; auto. discriminate.
  - destruct Hc as (start_dt & end_dt & _ & _ & Hc).
    destruct (execute_list _ (api_resource w)) as [[e | reply] s1].
    { rewrite Hc. eexists _, _, _. split; [reflexivity |]. split; [reflexivity |].
      split; [right; left; eauto |]. split; discriminate. }
    destruct (get_items reply) as [| c rest].
    + destruct (execute_insert _ s1) as [[e | created] s2]; rewrite Hc;
        (eexists _, _, _; split; [reflexivity |]; split; [reflexivity |];
         split; [right; right; left; eauto |]; split; [| discriminate]).
      * discriminate.
      * intros _. eexists _, _, created. repeat split.
    + destruct (suggest_slot fromisoformat (c :: rest) start_dt end_dt) as [e | [cs ce]].
      { rewrite Hc. eexists _, _, _. split; [reflexivity |]. split; [reflexivity |].
        split; [right; left; eauto |]. split; discriminate. }
      destruct (execute_list _ s1) as [[e | reply2] s2]; rewrite Hc;
        (eexists _, _, _; split; [reflexivity |]; split; [reflexivity |];
         split; [right; right; right; eauto |]; split; [| discriminate]).
      * discriminate.
      * destruct (get_items reply2); discriminate.
Qed.

End Runs.

(** ** The ids of the mock, and the mock under the tool *)

Lemma str_nat_read (n : nat) :
  option_map Nat.of_uint (NilZero.uint_of_string (str_nat n)) = Some n.
Proof.
  unfold str_nat. pose proof (DecimalNat.Unsigned.of_to n) as Hn.
  destruct (Nat.to_uint n) as [| d | d | d | d | d | d | d | d | d | d] eqn:E;
    [rewrite NilZero.usu_nil; cbn in *; congruence | ..];
    (rewrite NilZero.usu by discriminate; cbn [option_map]; congruence).
Qed.

Lemma str_nat_inj (a b : nat) : str_nat a = str_nat b -> a = b.
Proof.
  intros Heq. pose proof (str_nat_read a) as Ha. rewrite Heq, str_nat_read in Ha.
  congruence.
Qed.

Lemma numbered_insert_event (calendarId : string) (eventBody : Body.t)
      (events : list Event.t) :
  numbered events -> numbered (snd (insert_event calendarId eventBody events)).
Proof.
  intros Hn i ev. unfold insert_event. cbn [snd]. intros Hnth.
  destruct (Nat.lt_ge_cases i (List.length events)) as [Hlt | Hge].
  - rewrite nth_error_app1 in Hnth by exact Hlt. apply Hn. exact Hnth.
  - rewrite nth_error_app2 in Hnth by exact Hge.
    destruct (i - List.length events)%nat as [| k] eqn:Hk.
    + cbn in Hnth. injection Hnth as <-. cbn [Event.id].
      replace i with (List.length events) by lia. reflexivity.
    + destruct k; discriminate.
Qed.

Lemma numbered_NoDup (events : list Event.t) :
  numbered events -> NoDup (map Event.id events).
Proof.
  intros Hn. apply NoDup_nth_error. intros i j Hi Heq.
  rewrite length_map in Hi.
  rewrite !nth_error_map in Heq.
  destruct (nth_error events i) as [a |] eqn:Ha.
  2:{ apply nth_error_None in Ha. lia. }
  destruct (nth_error events j) as [b |] eqn:Hb; [| discriminate].
  cbn in Heq. injection Heq as Heq.
  rewrite (Hn _ _ Ha), (Hn _ _ Hb) in Heq. cbn in Heq.
  injection Heq as Heq. apply str_nat_inj in Heq. lia.
Qed.

(** X7. [insert_event] keeps the numbering of the ids: if the stored events
    are numbered by position (as in a calendar filled by [insert_event] alone,
    the empty one among them), they still are after one more insertion; the
    ids of the stored events are then pairwise different and the id of the new
    event is none of the earlier ones. *)
Theorem insert_event_keeps_ids_distinct
        (calendarId : string) (eventBody : Body.t) (events : list Event.t) :
  numbered events ->
  let (new_event, events') := insert_event calendarId eventBody events in
  numbered events' /\
  NoDup (map Event.id events') /\
  ~ In (Event.id new_event) (map Event.id events).
Proof.
  intros Hn.
  pose proof (numbered_insert_event calendarId eventBody events Hn) as Hn'.
  unfold insert_event in *. cbn [snd] in Hn'.
  set (new_event := {| Event.id := _ |}) in *.
  pose proof (numbered_NoDup _ Hn') as Hnd.
  split; [exact Hn' |]. split; [exact Hnd |].
  rewrite map_app in Hnd. cbn [map] in Hnd.
  apply NoDup_remove_2 in Hnd. rewrite app_nil_r in Hnd. exact Hnd.
Qed.

Section RepositoryMock.

Variable fromisoformat : string -> exc datetime.

(** X6. Through the tool, the mock of the repository serves no request.
    The attribute [events] of the object hides the method [events], so the
    call [api_resource.events()] raises [TypeError] inside the [try] block.
    Every run over the mock answers with status error, without an event and
    without a suggestion, and leaves the stored events as they are; a request
    that passes the validation and whose two ends are read is answered with
    the message of that [TypeError], after the first list request. *)
Theorem mock_serves_no_request
        (summary preferred_start preferred_end calendar_id : string)
        (w : world (list Event.t)) :
  exists r w',
    @smart_schedule_meeting fromisoformat _ MockGoogleCalendarAPI
      summary preferred_start preferred_end calendar_id w = (inr r, w') /\
    status r = "error" /\ event r = None /\
    suggested_start r = None /\ suggested_end r = None /\
    api_resource w' = api_resource w /\
    forall start_dt end_dt,
      summary <> "" -> preferred_start <> "" -> preferred_end <> "" ->
      localized fromisoformat preferred_start = inr start_dt ->
      localized fromisoformat preferred_end = inr end_dt ->
      r = error_response "An error occurred: 'list' object is not callable" /\
      requests w'
      = (requests w
         ++ [ReqList (window_request calendar_id (isoformat start_dt)
                                     (isoformat end_dt))])%list.
Proof.
  pose proof (@run_cases fromisoformat _ MockGoogleCalendarAPI
                         summary preferred_start preferred_end calendar_id w) as Hc.
  cbv zeta in Hc.
  destruct Hc as [(Hmiss & ->) | (_ & [(e & Hbad & ->) | [(sd & e & _ & Hbad & ->) | Hc]])].
  - eexists _, _. split; [reflexivity |]. cbn. do 5 (split; [reflexivity |]).
    intros sd ed Hs Hps Hpe. rewrite (all_present _ _ _ Hs Hps Hpe) in Hmiss. discriminate.
  - eexists _, _. split; [reflexivity |]. cbn. do 5 (split; [reflexivity |]).
    intros sd ed _ _ _ Hstart. congruence.
  - eexists _, _. split; [reflexivity |]. cbn. do 5 (split; [reflexivity |]).
    intros sd' ed _ _ _ _ Hend. congruence.
  - destruct Hc as (start_dt & end_dt & Hstart & Hend & Hc).
    cbn [execute_list MockGoogleCalendarAPI] in Hc. unfold raise in Hc. rewrite Hc.
    eexists _, _. split; [reflexivity |]. cbn. do 5 (split; [reflexivity |]).
    intros sd ed _ _ _ Hsd Hed. rewrite Hstart in Hsd. rewrite Hend in Hed.
    injection Hsd as <-. injection Hed as <-. split; reflexivity.
Qed.

End RepositoryMock.


(** ** The slot proposal *)

Section Proposal.

Variable fromisoformat : string -> exc datetime.

Lemma latest_end_raises (conflicts : list Event.t) :
  Exists (fun c => dateTime (Event.end_ c) = None) conflicts ->
  forall d0, exists e, latest_end fromisoformat conflicts d0 = inl e.
Proof.
  induction 1 as [c rest Hnone | c rest _ IH]; intros d0; cbn [latest_end].
  - unfold getitem_dateTime, raise. rewrite Hnone. cbn [exc_bind]. eauto.
  - destruct (getitem_dateTime (Event.end_ c)) as [e | s]; cbn [exc_bind]; [eauto |].
    destruct (localized fromisoformat s) as [e | d]; cbn [exc_bind]; [eauto |].
    destruct (dt_gt d d0) as [e | later]; cbn [exc_bind]; [eauto |].
    apply IH.
Qed.

(** X9. The candidate start lies after everything that was seen: more than
    four minutes after the original end and after the end of every conflict
    (read as wall clocks of the zone), and at most thirty-five minutes after
    the latest of them. *)
Theorem suggestion_follows_every_end_seen
        (conflicts : list Event.t) (preferred_start preferred_end : string)
        (start_dt end_dt cs ce : datetime) :
  localized fromisoformat preferred_start = inr start_dt ->
  localized fromisoformat preferred_end = inr end_dt ->
  suggest_slot fromisoformat conflicts start_dt end_dt = inr (cs, ce) ->
  wall end_dt + timedelta_minutes 4 < wall cs /\
  Forall (fun c => exists e,
              conflict_end fromisoformat c = inr e /\
              wall e + timedelta_minutes 4 < wall cs) conflicts /\
  exists latest,
    latest_end fromisoformat conflicts end_dt = inr latest /\
    wall cs <= wall latest + timedelta_minutes 35.
Proof.
  intros Hstart Hend Hslot.
  destruct (localized_inr _ _ _ Hstart) as (_ & _ & _ & Hzs).
  destruct (localized_inr _ _ _ Hend) as (_ & _ & _ & Hze).
  destruct (candidate_start_characterised _ _ _ _ _ _ Hzs Hze Hslot)
    as (latest & Hl & Hle & Hall & _ & Hgrid).
  cbv zeta in Hgrid. destruct Hgrid as (_ & Hrange & Hfour & _).
  split; [lia |]. split.
  - eapply Forall_impl; [| exact Hall]. intros c (e & He & Hew). exists e.
    split; [exact He | lia].
  - exists latest. split; [exact Hl |].
    unfold HALF_HOUR, timedelta_minutes, US_PER_MINUTE in *.
    Z.div_mod_to_equations. lia.
Qed.

(** X10. The proposal does not depend on the order in which the backend
    lists the conflicts: when every conflict has a readable end, two lists
    with the same conflicts in different orders give the same candidate. *)
Theorem suggestion_ignores_order_of_conflicts
        (conflicts conflicts' : list Event.t) (preferred_end : string)
        (start_dt end_dt : datetime) :
  Permutation conflicts conflicts' ->
  localized fromisoformat preferred_end = inr end_dt ->
  Forall (fun c => exists e, conflict_end fromisoformat c = inr e) conflicts ->
  suggest_slot fromisoformat conflicts start_dt end_dt
  = suggest_slot fromisoformat conflicts' start_dt end_dt.
Proof.
  intros Hperm Hend Hall.
  destruct (localized_inr _ _ _ Hend) as (_ & _ & _ & Hze).
  assert (Hall' : Forall (fun c => exists e, conflict_end fromisoformat c = inr e) conflicts').
  { eapply Permutation_Forall; eassumption. }
  destruct (latest_end_returns _ conflicts end_dt Hze Hall) as (d & Hd).
  destruct (latest_end_returns _ conflicts' end_dt Hze Hall') as (d' & Hd').
  destruct (latest_end_is_max _ _ _ _ Hze Hd) as (Hz & Hle & Hmax & Hone).
  destruct (latest_end_is_max _ _ _ _ Hze Hd') as (Hz' & Hle' & Hmax' & Hone').
  rewrite Forall_forall in Hmax, Hmax'.
  assert (H1 : wall d <= wall d').
  { destruct Hone as [-> | Hex]; [exact Hle' |].
    apply Exists_exists in Hex. destruct Hex as (c & Hin & Hc).
    destruct (Hmax' c (Permutation_in _ Hperm Hin)) as (e & He & Hew). congruence. }
  assert (H2 : wall d' <= wall d).
  { destruct Hone' as [-> | Hex]; [exact Hle |].
    apply Exists_exists in Hex. destruct Hex as (c & Hin & Hc).
    destruct (Hmax c (Permutation_in _ (Permutation_sym Hperm) Hin)) as (e & He & Hew).
    congruence. }
  assert (Heq : d = d').
  { destruct d as [wd zd], d' as [wd' zd']. cbn in *. f_equal; [lia | congruence]. }
  unfold suggest_slot. rewrite Hd, Hd', Heq. reflexivity.
Qed.

Context {S : Type} `{CalendarAPI S}.

(** X11. A conflict without an end [dateTime] (an all-day event of the
    calendar service) stops the proposal: the tool answers with status error,
    suggests nothing, and has sent the first list request only. *)
Theorem conflict_without_end_time_is_an_error
        (summary preferred_start preferred_end calendar_id : string) (w : world S)
        (start_dt end_dt : datetime) (reply : ListReply) (s1 : S) :
  let preferred := window_request calendar_id (isoformat start_dt) (isoformat end_dt) in
  summary <> "" -> preferred_start <> "" -> preferred_end <> "" ->
  localized fromisoformat preferred_start = inr start_dt ->
  localized fromisoformat preferred_end = inr end_dt ->
  execute_list preferred (api_resource w) = (inr reply, s1) ->
  Exists (fun c => dateTime (Event.end_ c) = None) (get_items reply) ->
  exists e,
    smart_schedule_meeting fromisoformat summary preferred_start preferred_end calendar_id w
    = (inr (error_response ("An error occurred: " ++ exn_str e)),
       sent w s1 [ReqList preferred]).
Proof.
  intros preferred Hs Hps Hpe Hstart Hend Hlist Hbad.
  destruct (latest_end_raises _ Hbad end_dt) as (e & He).
  exists e.
  eapply path_no_candidate; try eassumption.
  - apply all_present; assumption.
  - intros Hnil. rewrite Hnil in Hbad. inversion Hbad.
  - unfold suggest_slot. rewrite He. reflexivity.
Qed.

End Proposal.

(** ** [parse_natural_datetime] and the second copy of the tool *)

Section Phrases.

Variable fromisoformat : string -> exc datetime.
Variable dateutil_parse : string -> datetime -> exc datetime.

(** X12. What a readable phrase becomes, for times at which the zone is at
    +05:30 (from 15 October 1945) and away from the last day that [datetime]
    can hold.  The phrase parser is given the reference time localized to the
    zone as its default.  A naive result keeps its wall clock and gets the
    offset of the zone; an aware result is converted: the returned timestamp
    denotes the same instant, at the offset of the zone. *)
Theorem parsed_phrase_is_expressed_in_the_zone
        (input_string current_datetime_str : string) (current_dt parsed_dt : datetime) :
  localized fromisoformat current_datetime_str = inr current_dt ->
  IST_SINCE <= wall current_dt < MAXWALL - US_PER_DAY ->
  dateutil_parse input_string current_dt = inr parsed_dt ->
  match tzinfo parsed_dt with
  | None =>
      IST_SINCE <= wall parsed_dt < MAXWALL - US_PER_DAY ->
      parse_natural_datetime fromisoformat dateutil_parse input_string current_datetime_str
      = {| parsed_datetime :=
             Some (isoformat {| wall := wall parsed_dt;
                                tzinfo := Some kolkata_utcoffset |});
           error := None |}
  | Some off =>
      IST_SINCE - timedelta_minutes 390 <= wall parsed_dt - off ->
      wall parsed_dt - off + kolkata_utcoffset < MAXWALL ->
      exists converted,
        parse_natural_datetime fromisoformat dateutil_parse input_string
                               current_datetime_str
        = {| parsed_datetime := Some (isoformat converted); error := None |} /\
        instant converted = instant parsed_dt /\
        tzinfo converted = Some kolkata_utcoffset
  end.
Proof.
  intros Hcur _ Hparse. unfold parse_natural_datetime. rewrite Hcur. cbn [exc_bind].
  rewrite Hparse. cbn [exc_bind].
  destruct (tzinfo parsed_dt) as [off |] eqn:Hz.
  - intros Hlo Hhi. unfold astimezone.
    assert (Hist : 0 <= IST_SINCE - timedelta_minutes 390) by (vm_compute; discriminate).
    assert (Hk : 0 <= kolkata_utcoffset) by (vm_compute; discriminate).
    assert (H1 : in_range (wall parsed_dt - off) = true).
    { unfold in_range. apply andb_true_iff. split; [apply Z.leb_le | apply Z.ltb_lt]; lia. }
    assert (H2 : in_range (wall parsed_dt - off + kolkata_utcoffset) = true).
    { unfold in_range. apply andb_true_iff. split; [apply Z.leb_le | apply Z.ltb_lt]; lia. }
    rewrite H1, H2. cbn [exc_bind].
    eexists. split; [reflexivity |]. unfold instant. rewrite Hz. cbn.
    split; [lia | reflexivity].
  - intros _. unfold localize. rewrite Hz. reflexivity.
Qed.

(** X13. An unreadable reference time gives the error answer with the
    message of its parser, whatever the phrase: the phrase parser is not
    consulted. *)
Theorem unreadable_reference_is_an_error
        (input_string current_datetime_str : string) (e : exn) :
  fromisoformat current_datetime_str = inl e ->
  parse_natural_datetime fromisoformat dateutil_parse input_string current_datetime_str
  = {| parsed_datetime := None;
       error := Some ("Could not parse natural datetime: " ++ exn_str e
                      ++ ". Please try a more specific format.") |}.
Proof.
  intros Hbad. unfold parse_natural_datetime, localized. rewrite Hbad. reflexivity.
Qed.

(** X14. An aware phrase whose instant, read in the zone, falls outside the
    years 1 to 9999 gives the error answer of an overflow instead of a
    timestamp. *)
Theorem phrase_out_of_range_is_an_error
        (input_string current_datetime_str : string) (current_dt parsed_dt : datetime)
        (off : Z) :
  localized fromisoformat current_datetime_str = inr current_dt ->
  dateutil_parse input_string current_dt = inr parsed_dt ->
  tzinfo parsed_dt = Some off ->
  wall parsed_dt - off + kolkata_utcoffset < 0
  \/ MAXWALL <= wall parsed_dt - off + kolkata_utcoffset ->
  parse_natural_datetime fromisoformat dateutil_parse input_string current_datetime_str
  = {| parsed_datetime := None;
       error := Some "Could not parse natural datetime: date value out of range. Please try a more specific format." |}.
Proof.
  intros Hcur Hparse Hz Hout. unfold parse_natural_datetime. rewrite Hcur. cbn [exc_bind].
  rewrite Hparse. cbn [exc_bind]. rewrite Hz. unfold astimezone.
  assert (Hr : in_range (wall parsed_dt - off + kolkata_utcoffset) = false).
  { unfold in_range. apply andb_false_iff.
    destruct Hout as [Hlo | Hhi]; [left; apply Z.leb_gt | right; apply Z.ltb_ge]; lia. }
  rewrite Hr. destruct (in_range (wall parsed_dt - off)); reflexivity.
Qed.

End Phrases.

(** X16. The copy of the tool in [main_terminal.py] answers with an error,
    before any other check and without touching the calendar, when no backend
    is passed; with a backend it runs exactly as the tool of [tools.py] over
    that backend. *)
Theorem terminal_copy_agrees
        (fromisoformat : string -> exc datetime) (S : Type)
        (summary preferred_start preferred_end calendar_id : string) (w : world S) :
  Terminal.smart_schedule_meeting fromisoformat summary preferred_start preferred_end
                                  calendar_id None w
  = (inr (error_response "Google Calendar API resource not provided to the tool."), w)
  /\
  forall api : CalendarAPI S,
    Terminal.smart_schedule_meeting fromisoformat summary preferred_start preferred_end
                                    calendar_id (Some api) w
    = @smart_schedule_meeting fromisoformat S api summary preferred_start preferred_end
                              calendar_id w.
Proof.
  split; [reflexivity |]. intros api. reflexivity.
Qed.

(** ** The response contract *)

Section Contract.

Variable fromisoformat : string -> exc datetime.
Context {S : Type} `{CalendarAPI S}.

(** X17. Every response is one of four shapes.  Its status is success,
    conflict or error and its message is not empty; it carries an event
    exactly when the status is success; the two ends of a suggestion come
    together, and only with status conflict. *)
Theorem response_is_well_formed
        (summary preferred_start preferred_end calendar_id : string) (w : world S) :
  exists r w',
    smart_schedule_meeting fromisoformat summary preferred_start preferred_end calendar_id w
    = (inr r, w') /\
    (status r = "success" \/ status r = "conflict" \/ status r = "error") /\
    message r <> "" /\
    (event r <> None <-> status r = "success") /\
    (suggested_start r = None <-> suggested_end r = None) /\
    (suggested_start r <> None -> status r = "conflict").
Proof.
  pose proof (run_cases fromisoformat summary preferred_start preferred_end calendar_id w)
    as Hc.
  cbv zeta in Hc.
  assert (Herr : forall m (w0 : world S),
             m <> "" ->
             exists r (w' : world S),
               (@inr exn Response (error_response m), w0) = (inr r, w') /\
               (status r = "success" \/ status r = "conflict" \/ status r = "error") /\
               message r <> "" /\
               (event r <> None <-> status r = "success") /\
               (suggested_start r = None <-> suggested_end r = None) /\
               (suggested_start r <> None -> status r = "conflict")).
  { intros m w0 Hm. eexists _, _. split; [reflexivity |]. cbn.
    repeat split; auto; try discriminate; try congruence. }
  assert (Hraised : forall e, "An error occurred: " ++ exn_str e <> "") by discriminate.
  destruct Hc as [(_ & ->) | (_ & [(e & _ & ->) | [(sd & e & _ & _ & ->) | Hc]])];
    try (apply Herr; discriminate).
  destruct Hc as (start_dt & end_dt & _ & _ & Hc).
  destruct (execute_list _ (api_resource w)) as [[e | reply] s1].
  { rewrite Hc. apply Herr, Hraised. }
  destruct (get_items reply) as [| c rest].
  - destruct (execute_insert _ s1) as [[e | created] s2]; rewrite Hc.
    + apply Herr, Hraised.
    + eexists _, _. split; [reflexivity |]. cbn.
      repeat split; auto; try discriminate; try congruence.
  - destruct (suggest_slot fromisoformat (c :: rest) start_dt end_dt) as [e | [cs ce]].
    { rewrite Hc. apply Herr, Hraised. }
    destruct (execute_list _ s1) as [[e | reply2] s2]; rewrite Hc.
    + apply Herr, Hraised.
    + eexists _, _. split; [reflexivity |].
      destruct (get_items reply2); cbn;
        repeat split; auto; try discriminate; try congruence.
Qed.

(** The run behind a response that carries a suggestion. *)
Lemma suggestion_run
        (summary preferred_start preferred_end calendar_id : string) (w w' : world S)
        (r : Response) (a b : string) :
  smart_schedule_meeting fromisoformat summary preferred_start preferred_end calendar_id w
  = (inr r, w') ->
  suggested_start r = Some a ->
  suggested_end r = Some b ->
  exists p s1 reply2,
    requests w' = (requests w ++ [ReqList p; ReqList (window_request calendar_id a b)])%list /\
    execute_list (window_request calendar_id a b) s1 = (inr reply2, api_resource w') /\
    get_items reply2 = [] /\
    status r = "conflict" /\ event r = None.
Proof.
  intros Hrun Ha Hb.
  pose proof (run_cases fromisoformat summary preferred_start preferred_end calendar_id w)
    as Hc.
  cbv zeta in Hc. rewrite Hrun in Hc.
  destruct Hc as [(_ & Hc) | (_ & [(e & _ & Hc) | [(sd & e & _ & _ & Hc) | Hc]])];
    try (injection Hc as -> _; discriminate).
  destruct Hc as (start_dt & end_dt & _ & _ & Hc).
  destruct (execute_list _ (api_resource w)) as [[e | reply] s1].
  { injection Hc as -> _. discriminate. }
  destruct (get_items reply) as [| c rest].
  - destruct (execute_insert _ s1) as [[e | created] s2]; injection Hc as -> _; discriminate.
  - destruct (suggest_slot fromisoformat (c :: rest) start_dt end_dt) as [e | [cs ce]].
    { injection Hc as -> _. discriminate. }
    destruct (execute_list _ s1) as [[e | reply2] s2] eqn:Hl2.
    { injection Hc as -> _. discriminate. }
    destruct (get_items reply2) as [| c2 rest2] eqn:Hitems2;
      injection Hc as -> ->; [| discriminate].
    cbn in Ha, Hb. injection Ha as <-. injection Hb as <-.
    eexists _, s1, reply2. cbn [sent requests api_resource].
    repeat split; [exact Hl2 | exact Hitems2].
Qed.

(** X18. A suggestion is a window the backend has just reported free.  When
    the response carries a suggested start and end, the run sent two list
    requests; the second asked about exactly the suggested window, in the
    calendar of the request, and was answered with no items. *)
Theorem suggestion_was_reported_free
        (summary preferred_start preferred_end calendar_id : string) (w w' : world S)
        (r : Response) (a b : string) :
  smart_schedule_meeting fromisoformat summary preferred_start preferred_end calendar_id w
  = (inr r, w') ->
  suggested_start r = Some a ->
  suggested_end r = Some b ->
  exists p s1 reply2,
    requests w' = (requests w ++ [ReqList p; ReqList (window_request calendar_id a b)])%list /\
    execute_list (window_request calendar_id a b) s1 = (inr reply2, api_resource w') /\
    get_items reply2 = [] /\
    status r = "conflict" /\ event r = None.
Proof.
  apply suggestion_run.
Qed.

End Contract.

(** ** The further properties on concrete requests *)

(** The window 10:00 to 10:30 on [morning] followed by the open-ended event. *)
Lemma list_events_skips_later_bookings_witness :
  list_events Iso.fromisoformat "primary"
              "2025-07-17T10:00:00+05:30" "2025-07-17T10:30:00+05:30"
              (morning ++ [open_ended])%list
  = inr {| items :=
             Some (filter (booking_overlaps Iso.fromisoformat
                             (at_ "2025-07-17T10:00:00") (at_ "2025-07-17T10:30:00"))
                          (morning ++ [open_ended])%list) |}.
Proof.
  apply (list_events_skips_later_bookings Iso.fromisoformat).
  - vm_compute. reflexivity.
  - vm_compute. reflexivity.
  - unfold morning. cbn [app].
    apply Forall_cons; [| apply Forall_cons; [| apply Forall_cons; [| apply Forall_nil]]].
    + left. eexists. eexists. split; [vm_compute; reflexivity | split; reflexivity].
    + left. eexists. eexists. split; [vm_compute; reflexivity | split; reflexivity].
    + right. eexists. eexists. split; [reflexivity |]. split; [vm_compute; reflexivity |].
      split; [reflexivity | vm_compute; discriminate].
Defined.

(** The same window with the all-day event stored after [morning]. *)
Lemma list_events_raises_on_all_day_booking_witness :
  list_events Iso.fromisoformat "primary"
              "2025-07-17T10:00:00+05:30" "2025-07-17T10:30:00+05:30"
              (morning ++ all_day :: [open_ended])%list
  = raise KeyError "'dateTime'".
Proof.
  apply (list_events_raises_on_all_day_booking Iso.fromisoformat "primary"
           "2025-07-17T10:00:00+05:30" "2025-07-17T10:30:00+05:30" morning [open_ended]
           all_day (at_ "2025-07-17T10:00:00") (at_ "2025-07-17T10:30:00")).
  - vm_compute. reflexivity.
  - vm_compute. reflexivity.
  - unfold morning.
    apply Forall_cons; [| apply Forall_cons; [| apply Forall_nil]];
      (left; eexists; eexists; split; [vm_compute; reflexivity | split; reflexivity]).
  - reflexivity.
Defined.

(** 10:45 to 11:30 on [morning] lists the second booking; after the insertion
    of 11:15 to 12:00 it lists the new event too. *)
Lemma inserted_event_is_listed_witness :
  let (new_event, events') :=
    insert_event "primary"
      (booking_body "Standup" (at_ "2025-07-17T11:15:00") (at_ "2025-07-17T12:00:00"))
      morning in
  list_events Iso.fromisoformat "primary"
              "2025-07-17T10:45:00+05:30" "2025-07-17T11:30:00+05:30" events'
  = inr {| items :=
             Some (filter (booking_overlaps Iso.fromisoformat
                             (at_ "2025-07-17T10:45:00") (at_ "2025-07-17T11:30:00"))
                          morning
                   ++ (if overlaps (at_ "2025-07-17T11:15:00") (at_ "2025-07-17T12:00:00")
                                   (at_ "2025-07-17T10:45:00") (at_ "2025-07-17T11:30:00")
                       then [new_event] else []))%list |}.
Proof.
  exact (inserted_event_is_listed Iso.fromisoformat "primary"
           "2025-07-17T10:45:00+05:30" "2025-07-17T11:30:00+05:30" morning
           (filter (booking_overlaps Iso.fromisoformat
                      (at_ "2025-07-17T10:45:00") (at_ "2025-07-17T11:30:00")) morning)
           (booking_body "Standup" (at_ "2025-07-17T11:15:00") (at_ "2025-07-17T12:00:00"))
           "2025-07-17T11:15:00+05:30" "2025-07-17T12:00:00+05:30"
           (at_ "2025-07-17T10:45:00") (at_ "2025-07-17T11:30:00")
           (at_ "2025-07-17T11:15:00") (at_ "2025-07-17T12:00:00")
           ltac:(vm_compute; reflexivity) ltac:(vm_compute; reflexivity)
           ltac:(vm_compute; reflexivity) ltac:(vm_compute; reflexivity)
           ltac:(vm_compute; reflexivity) ltac:(vm_compute; reflexivity)
           ltac:(vm_compute; reflexivity) ltac:(reflexivity) ltac:(reflexivity)).
Defined.

(** A preferred start that is not an ISO string, on the empty calendar. *)
Lemma unreadable_window_sends_nothing_witness :
  schedule "Sync" "tomorrow" "2025-07-17T10:30:00" fresh
  = (inr (error_response
            ("An error occurred: "
             ++ exn_str (Exception ValueError "Invalid isoformat string: 'tomorrow'"))),
     fresh).
Proof.
  unfold schedule.
  apply (@unreadable_window_sends_nothing Iso.fromisoformat _ stored).
  - discriminate.
  - discriminate.
  - discriminate.
  - left. vm_compute. reflexivity.
Defined.

Lemma morning_is_numbered : numbered morning.
Proof.
  intros i ev. unfold morning.
  destruct i as [| [| i]]; cbn; intros Hnth;
    [injection Hnth as <-; reflexivity | injection Hnth as <-; reflexivity |].
  destruct i; discriminate.
Qed.

(** One more insertion into [morning]. *)
Lemma insert_event_keeps_ids_distinct_witness :
  let (new_event, events') :=
    insert_event "primary"
      (booking_body "Standup" (at_ "2025-07-17T12:00:00") (at_ "2025-07-17T12:30:00"))
      morning in
  numbered events' /\
  NoDup (map Event.id events') /\
  ~ In (Event.id new_event) (map Event.id morning).
Proof.
  exact (insert_event_keeps_ids_distinct "primary"
           (booking_body "Standup" (at_ "2025-07-17T12:00:00") (at_ "2025-07-17T12:30:00"))
           morning morning_is_numbered).
Defined.

(** The candidate for 10:00 to 10:30 against [morning]. *)
Lemma suggestion_follows_every_end_seen_witness :
  wall (at_ "2025-07-17T10:30:00") + timedelta_minutes 4 < wall (at_ "2025-07-17T11:30:00") /\
  Forall (fun c => exists e,
              conflict_end Iso.fromisoformat c = inr e /\
              wall e + timedelta_minutes 4 < wall (at_ "2025-07-17T11:30:00")) morning /\
  exists latest,
    latest_end Iso.fromisoformat morning (at_ "2025-07-17T10:30:00") = inr latest /\
    wall (at_ "2025-07-17T11:30:00") <= wall latest + timedelta_minutes 35.
Proof.
  apply (suggestion_follows_every_end_seen Iso.fromisoformat morning
           "2025-07-17T10:00:00" "2025-07-17T10:30:00"
           (at_ "2025-07-17T10:00:00") (at_ "2025-07-17T10:30:00")
           (at_ "2025-07-17T11:30:00") (at_ "2025-07-17T12:00:00")).
  - vm_compute. reflexivity.
  - vm_compute. reflexivity.
  - vm_compute. reflexivity.
Defined.

(** [morning] listed backwards. *)
Lemma suggestion_ignores_order_of_conflicts_witness :
  suggest_slot Iso.fromisoformat morning
               (at_ "2025-07-17T10:00:00") (at_ "2025-07-17T10:30:00")
  = suggest_slot Iso.fromisoformat (rev morning)
                 (at_ "2025-07-17T10:00:00") (at_ "2025-07-17T10:30:00").
Proof.
  apply (suggestion_ignores_order_of_conflicts Iso.fromisoformat morning (rev morning)
           "2025-07-17T10:30:00").
  - apply Permutation_rev.
  - vm_compute. reflexivity.
  - unfold morning.
    apply Forall_cons; [| apply Forall_cons; [| apply Forall_nil]];
      (eexists; vm_compute; reflexivity).
Defined.

(** A request against the service that lists the all-day event. *)
Lemma conflict_without_end_time_is_an_error_witness :
  exists e,
    @smart_schedule_meeting Iso.fromisoformat unit service_with_all_day
      "Sync" "2025-07-17T10:00:00" "2025-07-17T10:30:00" "primary"
      {| api_resource := tt; requests := [] |}
    = (inr (error_response ("An error occurred: " ++ exn_str e)),
       sent {| api_resource := tt; requests := [] |} tt
            [ReqList (window_request "primary"
                        (isoformat (at_ "2025-07-17T10:00:00"))
                        (isoformat (at_ "2025-07-17T10:30:00")))]).
Proof.
  eapply (@conflict_without_end_time_is_an_error Iso.fromisoformat unit service_with_all_day).
  - discriminate.
  - discriminate.
  - discriminate.
  - vm_compute. reflexivity.
  - vm_compute. reflexivity.
  - reflexivity.
  - apply Exists_cons_hd. reflexivity.
Defined.

(** A phrase at UTC, read at 20:30 in the zone. *)
Lemma parsed_phrase_is_expressed_in_the_zone_witness :
  exists converted,
    parse_natural_datetime Iso.fromisoformat parse_iso_phrase "2025-07-18T15:00:00+00:00"
                           "2025-07-17T09:00:00+05:30"
    = {| parsed_datetime := Some (isoformat converted); error := None |} /\
    instant converted
    = instant {| wall := wall (at_ "2025-07-18T15:00:00"); tzinfo := Some 0 |} /\
    tzinfo converted = Some kolkata_utcoffset.
Proof.
  exact (parsed_phrase_is_expressed_in_the_zone Iso.fromisoformat parse_iso_phrase
           "2025-07-18T15:00:00+00:00" "2025-07-17T09:00:00+05:30"
           (at_ "2025-07-17T09:00:00")
           {| wall := wall (at_ "2025-07-18T15:00:00"); tzinfo := Some 0 |}
           ltac:(vm_compute; reflexivity)
           ltac:(vm_compute; split; [discriminate | reflexivity])
           ltac:(vm_compute; reflexivity)
           ltac:(vm_compute; discriminate) ltac:(vm_compute; reflexivity)).
Defined.

(** A reference time that is not an ISO string. *)
Lemma unreadable_reference_is_an_error_witness :
  parse_natural_datetime Iso.fromisoformat parse_iso_phrase "2025-07-18T15:00:00" "now"
  = {| parsed_datetime := None;
       error := Some ("Could not parse natural datetime: "
                      ++ exn_str (Exception ValueError "Invalid isoformat string: 'now'")
                      ++ ". Please try a more specific format.") |}.
Proof.
  apply (unreadable_reference_is_an_error Iso.fromisoformat parse_iso_phrase).
  vm_compute. reflexivity.
Defined.

(** The last second of the year 9999 at -08:00 is past the last year in the
    zone. *)
Lemma phrase_out_of_range_is_an_error_witness :
  parse_natural_datetime Iso.fromisoformat parse_iso_phrase "9999-12-31T23:59:59-08:00"
                         "2025-07-17T09:00:00+05:30"
  = {| parsed_datetime := None;
       error := Some "Could not parse natural datetime: date value out of range. Please try a more specific format." |}.
Proof.
  apply (phrase_out_of_range_is_an_error Iso.fromisoformat parse_iso_phrase
           "9999-12-31T23:59:59-08:00" "2025-07-17T09:00:00+05:30"
           (at_ "2025-07-17T09:00:00")
           {| wall := wall (at_ "9999-12-31T23:59:59"); tzinfo := Some (- (8 * US_PER_HOUR)) |}
           (- (8 * US_PER_HOUR))).
  - vm_compute. reflexivity.
  - vm_compute. reflexivity.
  - reflexivity.
  - right. vm_compute. discriminate.
Defined.

(** Scenario B: the suggestion 11:30 to 12:00. *)
Lemma suggestion_was_reported_free_witness :
  let w := reviewed in
  exists p s1 reply2,
    requests (snd (schedule "Sync" "2025-07-17T10:00:00" "2025-07-17T10:30:00" w))
    = (requests w
       ++ [ReqList p;
           ReqList (window_request "primary" "2025-07-17T11:30:00+05:30"
                                   "2025-07-17T12:00:00+05:30")])%list /\
    @execute_list _ stored
      (window_request "primary" "2025-07-17T11:30:00+05:30" "2025-07-17T12:00:00+05:30") s1
    = (inr reply2,
       api_resource (snd (schedule "Sync" "2025-07-17T10:00:00" "2025-07-17T10:30:00" w))) /\
    get_items reply2 = [] /\
    status (suggestion (at_ "2025-07-17T11:30:00") (at_ "2025-07-17T12:00:00")) = "conflict" /\
    event (suggestion (at_ "2025-07-17T11:30:00") (at_ "2025-07-17T12:00:00")) = None.
Proof.
  cbv zeta. unfold schedule.
  apply (@suggestion_was_reported_free Iso.fromisoformat _ stored
           "Sync" "2025-07-17T10:00:00" "2025-07-17T10:30:00" "primary").
  - vm_compute. reflexivity.
  - vm_compute. reflexivity.
  - vm_compute. reflexivity.
Defined.


